(** * ACRN device model: framebuffer PCI device and ACPI PM timer

    Shallow embedding of
      - devicemodel/hw/pci/pci_fbuf.c      (BAR0 register file, option
        parser, render callback, device initialisation), and
      - devicemodel/hw/platform/pmtimer.c  (set/get of the virtual ACPI
        power-management timer, port I/O handler),
    followed by the properties established about them.

    C integers are modelled as [Z] with the wrap-around of their type
    written out; the packed 128-byte register file is a [list byte]
    accessed little-endian (the device model targets x86-64); code that
    mutates the device or prints is written in a small state monad that
    also records the diagnostics and the calls to external collaborators. *)

From Stdlib Require Import ZArith Lia String Ascii List Bool.
From Stdlib Require Import Strings.Byte.
From stdpp Require Import base option list gmap strings.

Local Open Scope Z_scope.

(* ===================================================================== *)
(** ** Machine integers *)
(* ===================================================================== *)

Definition wrap8  (z : Z) : Z := z mod 2 ^ 8.
Definition wrap16 (z : Z) : Z := z mod 2 ^ 16.
Definition wrap32 (z : Z) : Z := z mod 2 ^ 32.
Definition wrap64 (z : Z) : Z := z mod 2 ^ 64.

Definition INT_MIN  : Z := - 2 ^ 31.
Definition INT_MAX  : Z := 2 ^ 31 - 1.
Definition UINT_MAX : Z := 2 ^ 32 - 1.

(* ===================================================================== *)
(** ** Bytes and little-endian access to a byte array *)
(* ===================================================================== *)

Definition Z_of_byte (b : byte) : Z := Z.of_N (Byte.to_N b).

Definition byte_of_Z (z : Z) : byte :=
  match Byte.of_N (Z.to_N (wrap8 z)) with
  | Some b => b
  | None => x00
  end.

(** [load_le m i n]: the [n] bytes of [m] from index [i] on, read as an
    unsigned little-endian number. *)
Fixpoint load_le (m : list byte) (i : nat) (n : nat) : Z :=
  match n with
  | O => 0
  | S k =>
      match m !! i with Some b => Z_of_byte b | None => 0 end
      + 2 ^ 8 * load_le m (S i) k
  end.

(** [store_le m i n v]: [m] with the low [n] bytes of [v] stored from
    index [i] on, least significant byte first. *)
Fixpoint store_le (m : list byte) (i : nat) (n : nat) (v : Z) : list byte :=
  match n with
  | O => m
  | S k => store_le (<[ i := byte_of_Z v ]> m) (S i) k (v / 2 ^ 8)
  end.

(* ===================================================================== *)
(** ** Diagnostics and calls to collaborators *)
(* ===================================================================== *)

(** Registers and codes of pci_regs.h, whose values are not among the
    sources (none of the properties depends on them). *)
Inductive pci_symbol : Type :=
  | PCIR_DEVICE | PCIR_VENDOR | PCIR_CLASS | PCIR_SUBCLASS
  | PCIC_DISPLAY | PCIS_DISPLAY_VGA | PCIBAR_MEM32.

(** What the code prints ([printf], [fprintf(stderr, ...)], [DPRINTF] with
    [fbuf_debug = 4], so that both DEBUG_INFO and DEBUG_VERBOSE messages
    are emitted) and what it asks of the console, VGA, RFB and PCI
    collaborators, in program order. *)
Inductive event : Type :=
  (* pci_fbuf.c *)
  | FbufWr (offset size value : Z)          (* "fbuf wr: offset ..." *)
  | FbufWriteTooLarge (offset size : Z)     (* "fbuf: write too large, ..." *)
  | FbufWriteUnknownSize (size : Z)         (* "fbuf: write unknown size" *)
  | FbufSwitchVGA                           (* "switching to VGA mode" *)
  | FbufSwitchVESA                          (* "switching to VESA mode" *)
  | FbufRd (offset size value : Z)          (* "fbuf rd: offset ..." *)
  | FbufReadTooLarge (offset size : Z)      (* "fbuf: read too large, ..." *)
  | FbufReadUnknownSize (size : Z)          (* "fbuf: read unknown size" *)
  | FbufUsage (opt : string)                (* pci_fbuf_usage(opt) *)
  | FbufOption (name config : string)       (* "pci_fbuf_vdev option ..." *)
  | FbufParseDone (height width port : Z)   (* "######## fb->memregs..." *)
  | FbufOnlyOne                             (* "Only one frame buffer ..." *)
  | FbufVgaNotEnabled                       (* "VGA rendering not enabled" *)
  | FbufBase (fb_base : Z)                  (* "fbuf frame buffer base" *)
  | FbufMapsegFailed                        (* "mapseg failed - ..." *)
  (* collaborators *)
  | CallVgaRender (vga_dev : Z)
  | CallGcResize (width height : Z)
  | CallSetCfgdata16 (reg : pci_symbol) (value : Z)
  | CallSetCfgdata8 (reg : pci_symbol) (code : pci_symbol)
  | CallAllocBar (idx : Z) (type : pci_symbol) (size : Z)
  | CallAddMsicap (msgs : Z)
  | CallMapMemseg (len gpa hva : Z)
  | CallConsoleInit (width height fb_base : Z)
  | CallConsoleFbRegister (arg : nat)
  | CallVgaInit (io_only : Z)
  | CallMemsetFb (fb_base len : Z)
  | CallRfbInit (host : option string) (port wait : Z)
                (password : option string)
  (* pmtimer.c *)
  | PmtmrInvalidWrite.                      (* "Invalid IO write! ..." *)

(** Ways in which an execution leaves defined behaviour. *)
Inductive fault : Type :=
  | OutsideLoad (offset size : Z)   (* load outside the register file *)
  | OutsideStore (offset size : Z)  (* store outside the register file *)
  | NullImage                       (* fb->gc_image dereferenced while NULL *)
  | AssertFailed                    (* assert(...) does not hold *)
  | BadPointer.                     (* dereference of a freed object *)

(* ===================================================================== *)
(** ** The state monad the code runs in *)
(* ===================================================================== *)

(** A computation starts from a state and the trace so far.  It either
    returns a value with the new state and trace, or stops at a fault; the
    state carried by [Crash] is the one in which the faulting access is
    made (its own effect is not defined). *)
Inductive outcome (S A : Type) : Type :=
  | Ret (a : A) (s : S) (t : list event)
  | Crash (f : fault) (s : S) (t : list event).
Arguments Ret {S A} a s t.
Arguments Crash {S A} f s t.

Definition M (S A : Type) : Type := S → list event → outcome S A.

Definition ret {S A} (a : A) : M S A := λ s t, Ret a s t.

Definition bind {S A B} (m : M S A) (k : A → M S B) : M S B :=
  λ s t, match m s t with
         | Ret a s' t' => k a s' t'
         | Crash f s' t' => Crash f s' t'
         end.

Definition get {S} : M S S := λ s t, Ret s s t.
Definition put {S} (s : S) : M S unit := λ _ t, Ret tt s t.
Definition modify {S} (f : S → S) : M S unit := λ s t, Ret tt (f s) t.
Definition emit {S} (e : event) : M S unit := λ s t, Ret tt s (t ++ [e]).
Definition crash {S A} (f : fault) : M S A := λ s t, Crash f s t.
Definition assert_ {S} (b : bool) : M S unit :=
  if b then ret tt else crash AssertFailed.

Declare Scope fbuf_scope.
Delimit Scope fbuf_scope with fbuf.
Notation "x <- m ;; k" := (bind m (λ x, k))
  (at level 20, m at level 99, k at level 200, only parsing) : fbuf_scope.
Notation "m ;; k" := (bind m (λ _, k))
  (at level 100, k at level 200, only parsing, right associativity)
  : fbuf_scope.
Local Open Scope fbuf_scope.

(** State at the end of an execution, whichever way it ended. *)
Definition final_state {S A} (o : outcome S A) : S :=
  match o with Ret _ s _ | Crash _ s _ => s end.

(* ===================================================================== *)
(** ** pci_fbuf.c: the framebuffer device *)
(* ===================================================================== *)

Definition DMEMSZ : Z := 128.
Definition FB_SIZE : Z := 16 * (1024 * 1024).
Definition COLS_MAX : Z := 1920.
Definition ROWS_MAX : Z := 1200.
Definition COLS_DEFAULT : Z := 1024.
Definition ROWS_DEFAULT : Z := 768.
Definition PCI_FBUF_MSI_MSGS : Z := 4.

(** [struct gfx_ctx_image] of the console: only [vgamode] (an [int]) is
    used by this file. *)
Record gfx_ctx_image : Type := { vgamode : Z }.

(** [struct pci_fbuf_vdev].  [memregs] is the packed register block
    (fbsize at 0, width at 4, height at 6, depth at 8, refreshrate at 10,
    reserved[116] at 12); char pointers are [option string] and [gc_image]
    is the image it points to, [None] standing for NULL. *)
Record pci_fbuf_vdev : Type := {
  dev : option nat;
  memregs : list byte;
  rfb_host : option string;
  rfb_password : option string;
  rfb_port : Z;
  rfb_wait : Z;
  vga_enabled : Z;
  vga_full : Z;
  fbaddr : Z;
  fb_base : Z;
  gc_width : Z;
  gc_height : Z;
  vga_dev : Z;
  gc_image : option gfx_ctx_image
}.

Definition set_dev (x : option nat) (fb : pci_fbuf_vdev) :=
  {| dev := x; memregs := memregs fb; rfb_host := rfb_host fb;
     rfb_password := rfb_password fb; rfb_port := rfb_port fb;
     rfb_wait := rfb_wait fb; vga_enabled := vga_enabled fb;
     vga_full := vga_full fb; fbaddr := fbaddr fb; fb_base := fb_base fb;
     gc_width := gc_width fb; gc_height := gc_height fb;
     vga_dev := vga_dev fb; gc_image := gc_image fb |}.
Definition set_memregs (x : list byte) (fb : pci_fbuf_vdev) :=
  {| dev := dev fb; memregs := x; rfb_host := rfb_host fb;
     rfb_password := rfb_password fb; rfb_port := rfb_port fb;
     rfb_wait := rfb_wait fb; vga_enabled := vga_enabled fb;
     vga_full := vga_full fb; fbaddr := fbaddr fb; fb_base := fb_base fb;
     gc_width := gc_width fb; gc_height := gc_height fb;
     vga_dev := vga_dev fb; gc_image := gc_image fb |}.
Definition set_rfb_host (x : option string) (fb : pci_fbuf_vdev) :=
  {| dev := dev fb; memregs := memregs fb; rfb_host := x;
     rfb_password := rfb_password fb; rfb_port := rfb_port fb;
     rfb_wait := rfb_wait fb; vga_enabled := vga_enabled fb;
     vga_full := vga_full fb; fbaddr := fbaddr fb; fb_base := fb_base fb;
     gc_width := gc_width fb; gc_height := gc_height fb;
     vga_dev := vga_dev fb; gc_image := gc_image fb |}.
Definition set_rfb_password (x : option string) (fb : pci_fbuf_vdev) :=
  {| dev := dev fb; memregs := memregs fb; rfb_host := rfb_host fb;
     rfb_password := x; rfb_port := rfb_port fb;
     rfb_wait := rfb_wait fb; vga_enabled := vga_enabled fb;
     vga_full := vga_full fb; fbaddr := fbaddr fb; fb_base := fb_base fb;
     gc_width := gc_width fb; gc_height := gc_height fb;
     vga_dev := vga_dev fb; gc_image := gc_image fb |}.
Definition set_rfb_port (x : Z) (fb : pci_fbuf_vdev) :=
  {| dev := dev fb; memregs := memregs fb; rfb_host := rfb_host fb;
     rfb_password := rfb_password fb; rfb_port := x;
     rfb_wait := rfb_wait fb; vga_enabled := vga_enabled fb;
     vga_full := vga_full fb; fbaddr := fbaddr fb; fb_base := fb_base fb;
     gc_width := gc_width fb; gc_height := gc_height fb;
     vga_dev := vga_dev fb; gc_image := gc_image fb |}.
Definition set_rfb_wait (x : Z) (fb : pci_fbuf_vdev) :=
  {| dev := dev fb; memregs := memregs fb; rfb_host := rfb_host fb;
     rfb_password := rfb_password fb; rfb_port := rfb_port fb;
     rfb_wait := x; vga_enabled := vga_enabled fb;
     vga_full := vga_full fb; fbaddr := fbaddr fb; fb_base := fb_base fb;
     gc_width := gc_width fb; gc_height := gc_height fb;
     vga_dev := vga_dev fb; gc_image := gc_image fb |}.
Definition set_vga_enabled (x : Z) (fb : pci_fbuf_vdev) :=
  {| dev := dev fb; memregs := memregs fb; rfb_host := rfb_host fb;
     rfb_password := rfb_password fb; rfb_port := rfb_port fb;
     rfb_wait := rfb_wait fb; vga_enabled := x;
     vga_full := vga_full fb; fbaddr := fbaddr fb; fb_base := fb_base fb;
     gc_width := gc_width fb; gc_height := gc_height fb;
     vga_dev := vga_dev fb; gc_image := gc_image fb |}.
Definition set_vga_full (x : Z) (fb : pci_fbuf_vdev) :=
  {| dev := dev fb; memregs := memregs fb; rfb_host := rfb_host fb;
     rfb_password := rfb_password fb; rfb_port := rfb_port fb;
     rfb_wait := rfb_wait fb; vga_enabled := vga_enabled fb;
     vga_full := x; fbaddr := fbaddr fb; fb_base := fb_base fb;
     gc_width := gc_width fb; gc_height := gc_height fb;
     vga_dev := vga_dev fb; gc_image := gc_image fb |}.
Definition set_fbaddr (x : Z) (fb : pci_fbuf_vdev) :=
  {| dev := dev fb; memregs := memregs fb; rfb_host := rfb_host fb;
     rfb_password := rfb_password fb; rfb_port := rfb_port fb;
     rfb_wait := rfb_wait fb; vga_enabled := vga_enabled fb;
     vga_full := vga_full fb; fbaddr := x; fb_base := fb_base fb;
     gc_width := gc_width fb; gc_height := gc_height fb;
     vga_dev := vga_dev fb; gc_image := gc_image fb |}.
Definition set_fb_base (x : Z) (fb : pci_fbuf_vdev) :=
  {| dev := dev fb; memregs := memregs fb; rfb_host := rfb_host fb;
     rfb_password := rfb_password fb; rfb_port := rfb_port fb;
     rfb_wait := rfb_wait fb; vga_enabled := vga_enabled fb;
     vga_full := vga_full fb; fbaddr := fbaddr fb; fb_base := x;
     gc_width := gc_width fb; gc_height := gc_height fb;
     vga_dev := vga_dev fb; gc_image := gc_image fb |}.
Definition set_gc_width (x : Z) (fb : pci_fbuf_vdev) :=
  {| dev := dev fb; memregs := memregs fb; rfb_host := rfb_host fb;
     rfb_password := rfb_password fb; rfb_port := rfb_port fb;
     rfb_wait := rfb_wait fb; vga_enabled := vga_enabled fb;
     vga_full := vga_full fb; fbaddr := fbaddr fb; fb_base := fb_base fb;
     gc_width := x; gc_height := gc_height fb;
     vga_dev := vga_dev fb; gc_image := gc_image fb |}.
Definition set_gc_height (x : Z) (fb : pci_fbuf_vdev) :=
  {| dev := dev fb; memregs := memregs fb; rfb_host := rfb_host fb;
     rfb_password := rfb_password fb; rfb_port := rfb_port fb;
     rfb_wait := rfb_wait fb; vga_enabled := vga_enabled fb;
     vga_full := vga_full fb; fbaddr := fbaddr fb; fb_base := fb_base fb;
     gc_width := gc_width fb; gc_height := x;
     vga_dev := vga_dev fb; gc_image := gc_image fb |}.
Definition set_vga_dev (x : Z) (fb : pci_fbuf_vdev) :=
  {| dev := dev fb; memregs := memregs fb; rfb_host := rfb_host fb;
     rfb_password := rfb_password fb; rfb_port := rfb_port fb;
     rfb_wait := rfb_wait fb; vga_enabled := vga_enabled fb;
     vga_full := vga_full fb; fbaddr := fbaddr fb; fb_base := fb_base fb;
     gc_width := gc_width fb; gc_height := gc_height fb;
     vga_dev := x; gc_image := gc_image fb |}.
Definition set_gc_image (x : option gfx_ctx_image) (fb : pci_fbuf_vdev) :=
  {| dev := dev fb; memregs := memregs fb; rfb_host := rfb_host fb;
     rfb_password := rfb_password fb; rfb_port := rfb_port fb;
     rfb_wait := rfb_wait fb; vga_enabled := vga_enabled fb;
     vga_full := vga_full fb; fbaddr := fbaddr fb; fb_base := fb_base fb;
     gc_width := gc_width fb; gc_height := gc_height fb;
     vga_dev := vga_dev fb; gc_image := x |}.

(** The typed fields of [memregs]. *)
Definition memregs_fbsize (fb : pci_fbuf_vdev) : Z := load_le (memregs fb) 0 4.
Definition memregs_width  (fb : pci_fbuf_vdev) : Z := load_le (memregs fb) 4 2.
Definition memregs_height (fb : pci_fbuf_vdev) : Z := load_le (memregs fb) 6 2.
Definition memregs_depth  (fb : pci_fbuf_vdev) : Z := load_le (memregs fb) 8 2.

Definition set_memregs_fbsize (v : Z) (fb : pci_fbuf_vdev) :=
  set_memregs (store_le (memregs fb) 0 4 v) fb.
Definition set_memregs_width (v : Z) (fb : pci_fbuf_vdev) :=
  set_memregs (store_le (memregs fb) 4 2 v) fb.
Definition set_memregs_height (v : Z) (fb : pci_fbuf_vdev) :=
  set_memregs (store_le (memregs fb) 6 2 v) fb.
Definition set_memregs_depth (v : Z) (fb : pci_fbuf_vdev) :=
  set_memregs (store_le (memregs fb) 8 2 v) fb.

(** [fb->gc_image->vgamode = v]. *)
Definition set_vgamode (v : Z) (fb : pci_fbuf_vdev) :=
  set_gc_image (Some {| vgamode := v |}) fb.

(** The register file occupies the byte offsets [0, DMEMSZ) from
    [&fb->memregs]. *)
Definition in_memregs (offset size : Z) : bool :=
  (0 <=? offset) && (offset + size <=? DMEMSZ).

(** Store of the low [size] bytes of [value] through the pointer
    [p = &fb->memregs + offset] (byte arithmetic). *)
Definition store_at (offset size value : Z) : M pci_fbuf_vdev unit :=
  if in_memregs offset size then
    modify (λ fb, set_memregs
      (store_le (memregs fb) (Z.to_nat offset) (Z.to_nat size) value) fb)
  else crash (OutsideStore offset size).

(** Load of [size] bytes through [p = &fb->memregs + offset]. *)
Definition load_at (offset size : Z) : M pci_fbuf_vdev Z :=
  if in_memregs offset size then
    fb <- get ;;
    ret (load_le (memregs fb) (Z.to_nat offset) (Z.to_nat size))
  else crash (OutsideLoad offset size).

(** [fb->gc_image->...]: the image pointed to. *)
Definition deref_gc_image : M pci_fbuf_vdev gfx_ctx_image :=
  fb <- get ;;
  match gc_image fb with
  | Some img => ret img
  | None => crash NullImage
  end.

(** [pci_fbuf_write]; [offset] and [value] are [uint64_t], [baridx] and
    [size] are [int].  In [offset + size] the [int] is converted to
    [uint64_t] and the sum wraps modulo 2^64. *)
Definition pci_fbuf_write (baridx offset size value : Z)
  : M pci_fbuf_vdev unit :=
  assert_ (baridx =? 0) ;;
  emit (FbufWr offset size value) ;;
  if wrap64 (offset + size) >? DMEMSZ then
    emit (FbufWriteTooLarge offset size)
  else
    (match size with
     | 1 => store_at offset 1 value
     | 2 => store_at offset 2 value
     | 4 => store_at offset 4 value
     | 8 => store_at offset 8 value
     | _ => emit (FbufWriteUnknownSize size)
     end) ;;
    img <- deref_gc_image ;;
    fb <- get ;;
    if (vgamode img =? 0) && (memregs_width fb =? 0)
       && (memregs_height fb =? 0) then
      emit FbufSwitchVGA ;;
      modify (set_vgamode 1) ;;
      modify (set_gc_width 0) ;;
      modify (set_gc_height 0)
    else if negb (vgamode img =? 0) && negb (memregs_width fb =? 0)
            && negb (memregs_height fb =? 0) then
      emit FbufSwitchVESA ;;
      modify (set_vgamode 0)
    else ret tt.

(** [pci_fbuf_read]. *)
Definition pci_fbuf_read (baridx offset size : Z) : M pci_fbuf_vdev Z :=
  assert_ (baridx =? 0) ;;
  if wrap64 (offset + size) >? DMEMSZ then
    emit (FbufReadTooLarge offset size) ;;
    ret 0
  else
    value <- (match size with
              | 1 => load_at offset 1
              | 2 => load_at offset 2
              | 4 => load_at offset 4
              | 8 => load_at offset 8
              | _ => emit (FbufReadUnknownSize size) ;; ret 0
              end) ;;
    emit (FbufRd offset size value) ;;
    ret value.

(** [pci_fbuf_render], the callback registered with the console. *)
Definition pci_fbuf_render : M pci_fbuf_vdev unit :=
  fb <- get ;;
  vga <- (if vga_full fb =? 0 then ret false
          else img <- deref_gc_image ;; ret (negb (vgamode img =? 0))) ;;
  if (vga : bool) then
    emit (CallVgaRender (vga_dev fb))
  else if negb (gc_width fb =? memregs_width fb)
          || negb (gc_height fb =? memregs_height fb) then
    emit (CallGcResize (memregs_width fb) (memregs_height fb)) ;;
    modify (set_gc_width (memregs_width fb)) ;;
    modify (set_gc_height (memregs_height fb))
  else ret tt.

(** A zero-filled [struct pci_fbuf_vdev], as [calloc] returns it. *)
Definition fb_zero : pci_fbuf_vdev :=
  {| dev := None; memregs := replicate (Z.to_nat DMEMSZ) x00;
     rfb_host := None; rfb_password := None; rfb_port := 0; rfb_wait := 0;
     vga_enabled := 0; vga_full := 0; fbaddr := 0; fb_base := 0;
     gc_width := 0; gc_height := 0; vga_dev := 0; gc_image := None |}.

(** The display modes of the device. *)
Inductive mode : Type := VGA | VESA.

(** The display mode is VESA when [vgamode] is 0 and VGA otherwise. *)
Definition display_mode (fb : pci_fbuf_vdev) : option mode :=
  (λ img, if vgamode img =? 0 then VESA else VGA) <$> gc_image fb.

(** The transition rule in the words of the specification, against which
    [pci_fbuf_write] is compared: from VESA to VGA when width and height
    are both zero, from VGA to VESA when both are non-zero, no change
    otherwise. *)
Definition mode_rule (m : mode) (width height : Z) : mode :=
  match m with
  | VESA => if (width =? 0) && (height =? 0) then VGA else VESA
  | VGA => if negb (width =? 0) && negb (height =? 0) then VESA else VGA
  end.

(** A device with the given display mode, width and height registers and
    tracked render size, everything else zero. *)
Definition sample_fb (vgamode width height gcw gch : Z) : pci_fbuf_vdev :=
  set_gc_height gch (set_gc_width gcw
    (set_memregs_height height (set_memregs_width width
      (set_vgamode vgamode fb_zero)))).

(* --------------------------------------------------------------------- *)
(** *** Option parsing *)
(* --------------------------------------------------------------------- *)

(** [strsep(&s, c)] for a one-character delimiter set: the part before the
    first [c] and the part after it, or [None] when [s] has no [c] (the
    whole string is then the token and the pointer is set to NULL).
    [strchr(s, c)] followed by writing NUL over the match splits the same
    way. *)
Fixpoint strsep (c : ascii) (s : string) : option (string * string) :=
  match s with
  | EmptyString => None
  | String a r =>
      if Ascii.eqb a c then Some (EmptyString, r)
      else match strsep c r with
           | Some (h, t) => Some (String a h, t)
           | None => None
           end
  end.

(** The successive results of [strtok_r(.., c, &tmp)] over [s]: the maximal
    runs of characters other than [c]; empty runs are skipped.  [cur] is
    the run being scanned. *)
Fixpoint strtok_all (c : ascii) (s : string) (cur : string) : list string :=
  match s with
  | EmptyString => if String.eqb cur "" then [] else [cur]
  | String a r =>
      if Ascii.eqb a c then
        (if String.eqb cur "" then strtok_all c r ""
         else cur :: strtok_all c r "")
      else strtok_all c r (cur ++ String a "")
  end.

Definition is_space (a : ascii) : bool :=
  let n := N_of_ascii a in ((9 <=? n) && (n <=? 13))%N || (n =? 32)%N.

Definition digit_val (a : ascii) : option Z :=
  let n := Z.of_N (N_of_ascii a) in
  if (48 <=? n) && (n <=? 57) then Some (n - 48) else None.

Fixpoint skip_spaces (s : string) : string :=
  match s with
  | String a r => if is_space a then skip_spaces r else s
  | EmptyString => s
  end.

(** Decimal digits at the head of [s]: their value continuing [acc], how
    many there are, and the rest of the string. *)
Fixpoint scan_digits (s : string) (acc : Z) (n : nat) : Z * nat * string :=
  match s with
  | String a r =>
      match digit_val a with
      | Some d => scan_digits r (10 * acc + d) (S n)
      | None => (acc, n, s)
      end
  | EmptyString => (acc, n, s)
  end.

(** Optional white space, optional sign, decimal digits: [(negative,
    magnitude, rest)], or [None] when there is no digit. *)
Definition scan_number (s : string) : option (bool * Z * string) :=
  let s1 := skip_spaces s in
  let '(neg, s2) :=
    match s1 with
    | String "-"%char r => (true, r)
    | String "+"%char r => (false, r)
    | _ => (false, s1)
    end in
  match scan_digits s2 0 0 with
  | (_, O, _) => None
  | (v, _, rest) => Some (neg, v, rest)
  end.

(** Modelled from the spec: [dm_strtoi] of dm_string.c, which is not among
    the sources.  The spec asks for a numeric value ("port is mandatory and
    numeric", "malformed value fails device creation"); the model is the
    base-10 conversion of the C library ([strtol]) with the result required
    to fit an [int]: [Some (value, rest)] stands for return value 0 with
    [*val] and [*end] set, [None] for a non-zero return value with [*val]
    untouched. *)
Definition dm_strtoi (s : string) : option (Z * string) :=
  match scan_number s with
  | Some (neg, v, rest) =>
      let l := if neg : bool then - v else v in
      if (l <? INT_MIN) || (l >? INT_MAX) then None else Some (l, rest)
  | None => None
  end.

(** Modelled from the spec: [dm_strtoui] of dm_string.c, not among the
    sources; as [dm_strtoi], for [unsigned int] ([strtoul] negates a value
    written with a minus sign modulo 2^64 and fails beyond 2^64 - 1). *)
Definition dm_strtoui (s : string) : option (Z * string) :=
  match scan_number s with
  | Some (neg, v, rest) =>
      if v >? 2 ^ 64 - 1 then None
      else
        let l := if neg : bool then wrap64 (- v) else v in
        if l >? UINT_MAX then None else Some (l, rest)
  | None => None
  end.

(** Return value of the failing [dm_strtoi]. *)
Definition DM_STRTO_FAIL : Z := -1.

(** [pci_fbuf_usage(opt)]. *)
Definition pci_fbuf_usage (opt : string) : M pci_fbuf_vdev unit :=
  emit (FbufUsage opt).

(** Body of the [for] loop of [pci_fbuf_parse_opts] for the token [xopts].
    The result is the value of [ret] with which the iteration ends: 0 when
    the loop goes on, anything else when the code jumps to [done]. *)
Definition parse_one (xopts : string) : M pci_fbuf_vdev Z :=
  if String.eqb xopts "wait" then
    modify (set_rfb_wait 1) ;; ret 0
  else
    match strsep "="%char xopts with
    | None => pci_fbuf_usage xopts ;; ret (-1)
    | Some (xopts, config) =>
        emit (FbufOption xopts config) ;;
        if String.eqb xopts "tcp" || String.eqb xopts "rfb" then
          match strsep "]"%char config with
          | Some (tmpstr, config) =>
              let tmpstr :=
                match tmpstr with
                | String "["%char r => r
                | _ => tmpstr
                end in
              modify (set_rfb_host (Some tmpstr)) ;;
              match config with
              | String ":"%char config =>
                  match dm_strtoi config with
                  | Some (v, _) => modify (set_rfb_port v) ;; ret 0
                  | None => ret DM_STRTO_FAIL
                  end
              | _ => pci_fbuf_usage xopts ;; ret (-1)
              end
          | None =>
              match strsep ":"%char config with
              | None =>
                  match dm_strtoi config with
                  | Some (v, _) => modify (set_rfb_port v) ;; ret 0
                  | None => ret DM_STRTO_FAIL
                  end
              | Some (tmpstr, config) =>
                  r <- (match dm_strtoi config with
                        | Some (v, _) => modify (set_rfb_port v) ;; ret 0
                        | None => ret DM_STRTO_FAIL
                        end) ;;
                  modify (set_rfb_host (Some tmpstr)) ;;
                  ret r
              end
          end
        else if String.eqb xopts "vga" then
          if String.eqb config "off" then
            modify (set_vga_enabled 0) ;; ret 0
          else if String.eqb config "io" then
            modify (set_vga_enabled 1) ;; modify (set_vga_full 0) ;; ret 0
          else if String.eqb config "on" then
            modify (set_vga_enabled 1) ;; modify (set_vga_full 1) ;; ret 0
          else
            pci_fbuf_usage xopts ;; ret (-1)
        else if String.eqb xopts "w" then
          match dm_strtoui config with
          | Some (val, _) =>
              if val =? wrap16 val then
                modify (set_memregs_width val) ;;
                fb <- get ;;
                if memregs_width fb >? COLS_MAX then
                  pci_fbuf_usage xopts ;; ret (-1)
                else if memregs_width fb =? 0 then
                  modify (set_memregs_width 1920) ;; ret 0
                else ret 0
              else ret (-1)
          | None => ret (-1)
          end
        else if String.eqb xopts "h" then
          match dm_strtoui config with
          | Some (val, _) =>
              if val =? wrap16 val then
                modify (set_memregs_height val) ;;
                fb <- get ;;
                if memregs_height fb >? ROWS_MAX then
                  pci_fbuf_usage xopts ;; ret (-1)
                else if memregs_height fb =? 0 then
                  modify (set_memregs_height 1080) ;; ret 0
                else ret 0
              else ret (-1)
          | None => ret (-1)
          end
        else if String.eqb xopts "password" then
          modify (set_rfb_password (Some config)) ;; ret 0
        else
          pci_fbuf_usage xopts ;; ret (-1)
    end.

(** The [for] loop over the tokens: it stops at the first token that jumps
    to [done]. *)
Fixpoint parse_loop (toks : list string) : M pci_fbuf_vdev Z :=
  match toks with
  | [] => ret 0
  | xopts :: rest =>
      r <- parse_one xopts ;;
      if r =? 0 then parse_loop rest else ret r
  end.

(** [pci_fbuf_parse_opts(fb, opts)]. *)
Definition pci_fbuf_parse_opts (opts : string) : M pci_fbuf_vdev Z :=
  r <- parse_loop (strtok_all ","%char opts "") ;;
  fb <- get ;;
  emit (FbufParseDone (memregs_height fb) (memregs_width fb) (rfb_port fb)) ;;
  ret r.

(* --------------------------------------------------------------------- *)
(** *** Device initialisation *)
(* --------------------------------------------------------------------- *)

(** Process state seen by [pci_fbuf_init]: the static [fbuf_dev], the
    allocations of [struct pci_fbuf_vdev] that are live (a pointer is a
    key of [heap]; [free] removes it), [dev->arg] of the PCI device being
    created, and the argument of the render callback registered with the
    console. *)
Record world : Type := {
  fbuf_dev : option nat;
  heap : gmap nat pci_fbuf_vdev;
  next_ptr : nat;
  dev_arg : option nat;
  console_fb_arg : option nat
}.

Definition set_fbuf_dev (x : option nat) (w : world) :=
  {| fbuf_dev := x; heap := heap w; next_ptr := next_ptr w;
     dev_arg := dev_arg w; console_fb_arg := console_fb_arg w |}.
Definition set_heap (x : gmap nat pci_fbuf_vdev) (w : world) :=
  {| fbuf_dev := fbuf_dev w; heap := x; next_ptr := next_ptr w;
     dev_arg := dev_arg w; console_fb_arg := console_fb_arg w |}.
Definition set_next_ptr (x : nat) (w : world) :=
  {| fbuf_dev := fbuf_dev w; heap := heap w; next_ptr := x;
     dev_arg := dev_arg w; console_fb_arg := console_fb_arg w |}.
Definition set_dev_arg (x : option nat) (w : world) :=
  {| fbuf_dev := fbuf_dev w; heap := heap w; next_ptr := next_ptr w;
     dev_arg := x; console_fb_arg := console_fb_arg w |}.
Definition set_console_fb_arg (x : option nat) (w : world) :=
  {| fbuf_dev := fbuf_dev w; heap := heap w; next_ptr := next_ptr w;
     dev_arg := dev_arg w; console_fb_arg := x |}.

(** What the collaborators answer during one call of [pci_fbuf_init]: the
    address the bus gave BAR 1, [ctx->fb_base], the status of the BAR and
    MSI set-up calls, of [vm_map_memseg_vma] and of [rfb_init], the VGA
    device [vga_init] returns and the image [console_get_image] returns. *)
Record collaborators : Type := {
  bar1_addr : Z;
  ctx_fb_base : Z;
  alloc_bar0_status : Z;
  alloc_bar1_status : Z;
  add_msicap_status : Z;
  map_memseg_status : Z;
  vga_init_result : Z;
  console_image : option gfx_ctx_image;
  rfb_init_status : Z
}.

(** [calloc(1, sizeof(struct pci_fbuf_vdev))]. *)
Definition calloc_fb : M world nat :=
  w <- get ;;
  let p := next_ptr w in
  put (set_next_ptr (S p) (set_heap (<[ p := fb_zero ]> (heap w)) w)) ;;
  ret p.

(** [free(fb)]. *)
Definition free_fb (p : nat) : M world unit :=
  modify (λ w, set_heap (delete p (heap w)) w).

(** Run code that works on [*p] against the allocation [p]. *)
Definition with_fb {A} (p : nat) (m : M pci_fbuf_vdev A) : M world A :=
  λ w t,
    match heap w !! p with
    | None => Crash BadPointer w t
    | Some fb =>
        match m fb t with
        | Ret a fb' t' => Ret a (set_heap (<[ p := fb' ]> (heap w)) w) t'
        | Crash f fb' t' => Crash f (set_heap (<[ p := fb' ]> (heap w)) w) t'
        end
    end.

(** The assignments of [pci_fbuf_init] between the BAR set-up and the call
    of the option parser: BAR 1 address (kept in a [uint32_t]), default
    geometry 1024x768x32, VGA enabled and I/O only. *)
Definition fbuf_defaults (c : collaborators) (dev : nat)
  : M pci_fbuf_vdev unit :=
  modify (set_fbaddr (wrap32 (bar1_addr c))) ;;
  modify (set_memregs_fbsize FB_SIZE) ;;
  modify (set_memregs_width COLS_DEFAULT) ;;
  modify (set_memregs_height ROWS_DEFAULT) ;;
  modify (set_memregs_depth 32) ;;
  modify (set_vga_enabled 1) ;;
  modify (set_vga_full 0) ;;
  modify (set_dev (Some dev)).

(** [pci_fbuf_init(ctx, dev, opts)].  Every [goto done] is the branch that
    hands the current [error] to the code after the label. *)
Definition pci_fbuf_init (c : collaborators) (dev : nat) (opts : string)
  : M world Z :=
  w <- get ;;
  if fbuf_dev w is Some _ then
    emit FbufOnlyOne ;; ret (-1)
  else
    fb <- calloc_fb ;;
    modify (set_dev_arg (Some fb)) ;;
    emit (CallSetCfgdata16 PCIR_DEVICE 0x40FB) ;;
    emit (CallSetCfgdata16 PCIR_VENDOR 0xFB5D) ;;
    emit (CallSetCfgdata8 PCIR_CLASS PCIC_DISPLAY) ;;
    emit (CallSetCfgdata8 PCIR_SUBCLASS PCIS_DISPLAY_VGA) ;;
    emit (CallAllocBar 0 PCIBAR_MEM32 DMEMSZ) ;;
    assert_ (alloc_bar0_status c =? 0) ;;
    emit (CallAllocBar 1 PCIBAR_MEM32 FB_SIZE) ;;
    assert_ (alloc_bar1_status c =? 0) ;;
    emit (CallAddMsicap PCI_FBUF_MSI_MSGS) ;;
    assert_ (add_msicap_status c =? 0) ;;
    with_fb fb (fbuf_defaults c dev) ;;
    error <- with_fb fb (pci_fbuf_parse_opts opts) ;;
    error <-
      (if negb (error =? 0) then ret error
       else
         full <- with_fb fb (s <- get ;; ret (vga_full s)) ;;
         if negb (full =? 0) then
           emit FbufVgaNotEnabled ;; ret error
         else
           s <- with_fb fb (modify (set_fb_base (ctx_fb_base c)) ;; get) ;;
           emit (FbufBase (fb_base s)) ;;
           emit (CallMapMemseg FB_SIZE (fbaddr s) (fb_base s)) ;;
           if negb (map_memseg_status c =? 0) then
             emit FbufMapsegFailed ;; ret (-1)
           else
             emit (CallConsoleInit (memregs_width s) (memregs_height s)
                                   (fb_base s)) ;;
             emit (CallConsoleFbRegister fb) ;;
             modify (set_console_fb_arg (Some fb)) ;;
             (if negb (vga_enabled s =? 0) then
                emit (CallVgaInit (if vga_full s =? 0 then 1 else 0)) ;;
                with_fb fb (modify (set_vga_dev (vga_init_result c)))
              else ret tt) ;;
             with_fb fb (modify (set_gc_image (console_image c))) ;;
             modify (set_fbuf_dev (Some fb)) ;;
             emit (CallMemsetFb (fb_base s) FB_SIZE) ;;
             emit (CallRfbInit (rfb_host s) (rfb_port s) (rfb_wait s)
                               (rfb_password s)) ;;
             ret (rfb_init_status c)) ;;
    (if negb (error =? 0) then free_fb fb else ret tt) ;;
    ret error.

(** Collaborators that all succeed, except that [rfb_init] answers
    [rfb]. *)
Definition collaborators_ok (rfb : Z) : collaborators :=
  {| bar1_addr := 0xc0000000; ctx_fb_base := 0x7f0000000000;
     alloc_bar0_status := 0; alloc_bar1_status := 0;
     add_msicap_status := 0; map_memseg_status := 0;
     vga_init_result := 0x5000;
     console_image := Some {| vgamode := 1 |};
     rfb_init_status := rfb |}.

(** The process before any framebuffer device is created. *)
Definition world0 : world :=
  {| fbuf_dev := None; heap := ∅; next_ptr := 1; dev_arg := None;
     console_fb_arg := None |}.

(* ===================================================================== *)
(** ** pmtimer.c: the ACPI power-management timer *)
(* ===================================================================== *)

Definition IO_PMTMR : Z := 0x408.
Definition PMTMR_TICK_RATE : Z := 3579545.
Definition NANOSEC_TICK_RATE : Z := 1000000000.
Definition PMTMR_NOCARRY_MASK : Z := 0x7fffffff.
Definition PMTMR_NOCARRY_CNTS : Z := PMTMR_NOCARRY_MASK.
Definition PMTMR_CARRY_MASK : Z := 0x80000000.

(** Conversion of an unsigned 64-bit pattern to C [long]. *)
Definition to_int64 (z : Z) : Z :=
  let w := wrap64 z in if w <? 2 ^ 63 then w else w - 2 ^ 64.

Record timespec : Type := { tv_sec : Z; tv_nsec : Z }.
Record itimerspec : Type := { it_interval : timespec; it_value : timespec }.

(** Modelled from the spec: [struct acrn_timer] of timer.h, not among the
    sources, "a host timer facility providing arm(duration) /
    query-remaining()".  The model keeps the time that remains until the
    deadline; arming sets it and querying returns it, so that a query made
    before any host time has passed returns the duration just armed. *)
Record acrn_timer : Type := { remaining : itimerspec }.

(** [struct vpmtmr] (the [vm] back pointer and the mutex are left out: the
    model is sequential). *)
Record vpmtmr : Type := {
  timer : acrn_timer;
  io_addr : Z;
  msb_is_set : bool
}.

Definition set_timer (x : acrn_timer) (v : vpmtmr) :=
  {| timer := x; io_addr := io_addr v; msb_is_set := msb_is_set v |}.
Definition set_msb_is_set (x : bool) (v : vpmtmr) :=
  {| timer := timer v; io_addr := io_addr v; msb_is_set := x |}.

(** Modelled from the spec: [acrn_timer_settime] (timer.c, not among the
    sources) arms the timer for the duration [its]. *)
Definition acrn_timer_settime (its : itimerspec) : M vpmtmr unit :=
  modify (set_timer {| remaining := its |}).

(** Modelled from the spec: [acrn_timer_gettime] (timer.c, not among the
    sources) returns the time remaining until the armed deadline. *)
Definition acrn_timer_gettime : M vpmtmr itimerspec :=
  v <- get ;; ret (remaining (timer v)).

(** [set_pmtmr_val(vpmtmr, val)], [val] a [uint32_t]. *)
Definition set_pmtmr_val (val : Z) : M vpmtmr unit :=
  (if negb (Z.land val PMTMR_CARRY_MASK =? 0) then
     modify (set_msb_is_set true)
   else
     modify (set_msb_is_set false)) ;;
  let cnt2carry :=
    wrap32 (PMTMR_NOCARRY_CNTS - Z.land val PMTMR_NOCARRY_MASK) in
  let sec := cnt2carry / PMTMR_TICK_RATE in
  let tv_nsecs := wrap64 (cnt2carry * NANOSEC_TICK_RATE) / PMTMR_TICK_RATE in
  let nsec := to_int64 (tv_nsecs - wrap64 (sec * NANOSEC_TICK_RATE)) in
  acrn_timer_settime
    {| it_interval := {| tv_sec := 0; tv_nsec := 0 |};
       it_value := {| tv_sec := sec; tv_nsec := nsec |} |}.

(** [get_pmtmr_val(vpmtmr)]. *)
Definition get_pmtmr_val : M vpmtmr Z :=
  its <- acrn_timer_gettime ;;
  let val_nsecs :=
    wrap64 (tv_sec (it_value its) * NANOSEC_TICK_RATE
            + tv_nsec (it_value its)) in
  let cnt2carry :=
    wrap32 (wrap64 (val_nsecs * PMTMR_TICK_RATE) / NANOSEC_TICK_RATE) in
  let tmr_val :=
    wrap32 (PMTMR_NOCARRY_CNTS - Z.land cnt2carry PMTMR_NOCARRY_MASK) in
  v <- get ;;
  if msb_is_set v then
    ret (Z.lor tmr_val PMTMR_CARRY_MASK)
  else
    ret (Z.land tmr_val (wrap32 (Z.lnot PMTMR_CARRY_MASK))).

(** [vpmtmr_io_handler(ctx, vcpu, in, port, bytes, eax, arg)]: the result
    is the return value and the content of [*eax] afterwards. *)
Definition vpmtmr_io_handler (in_ port bytes eax : Z) : M vpmtmr (Z * Z) :=
  eax <- (if negb (in_ =? 0) then get_pmtmr_val
          else emit PmtmrInvalidWrite ;; ret eax) ;;
  ret (0, eax).

(** A timer device at rest, carry flag clear. *)
Definition vpmtmr_idle : vpmtmr :=
  {| timer := {| remaining :=
       {| it_interval := {| tv_sec := 0; tv_nsec := 0 |};
          it_value := {| tv_sec := 0; tv_nsec := 0 |} |} |};
     io_addr := IO_PMTMR;
     msb_is_set := false |}.

(* ===================================================================== *)
(** ** Vocabulary for the further properties *)
(* ===================================================================== *)

(** The access sizes the [switch] of [pci_fbuf_write] and [pci_fbuf_read]
    has a case for. *)
Definition supported_size (size : Z) : bool :=
  (size =? 1) || (size =? 2) || (size =? 4) || (size =? 8).

(** The fields of the device that hold its configuration, as opposed to
    the register block, the display mode and the tracked render size. *)
Definition same_config (a b : pci_fbuf_vdev) : Prop :=
  dev a = dev b ∧ rfb_host a = rfb_host b
  ∧ rfb_password a = rfb_password b ∧ rfb_port a = rfb_port b
  ∧ rfb_wait a = rfb_wait b ∧ vga_enabled a = vga_enabled b
  ∧ vga_full a = vga_full b ∧ fbaddr a = fbaddr b
  ∧ fb_base a = fb_base b ∧ vga_dev a = vga_dev b.

(** What [pci_fbuf_parse_opts] may change in the device: only the
    remote-display and VGA settings and the bytes 4 to 7 of the register
    block (width and height).  [option_frame a b]: [b] differs from [a] in
    nothing else. *)
Definition option_frame (a b : pci_fbuf_vdev) : Prop :=
  length (memregs b) = length (memregs a)
  ∧ (∀ j : nat, (j < 4 ∨ 8 ≤ j)%nat → memregs b !! j = memregs a !! j)
  ∧ dev b = dev a ∧ fbaddr b = fbaddr a ∧ fb_base b = fb_base a
  ∧ gc_width b = gc_width a ∧ gc_height b = gc_height a
  ∧ vga_dev b = vga_dev a ∧ gc_image b = gc_image a.

(** A device whose register block has its 128 bytes and holds a geometry
    within the limits of the option parser. *)
Definition geometry_ok (fb : pci_fbuf_vdev) : Prop :=
  length (memregs fb) = Z.to_nat DMEMSZ
  ∧ 1 <= memregs_width fb <= COLS_MAX
  ∧ 1 <= memregs_height fb <= ROWS_MAX.

(** The option names [pci_fbuf_parse_opts] knows. *)
Definition option_names : list string :=
  ["tcp"; "rfb"; "vga"; "w"; "h"; "password"]%string.

(** A token that is neither "wait" nor of the form name=value with a
    known name. *)
Definition unrecognised (tok : string) : Prop :=
  tok ≠ "wait"%string
  ∧ match strsep "="%char tok with
    | None => True
    | Some (name, _) => name ∉ option_names
    end.

(** What a call of [pci_fbuf_init] that reaches the allocation leaves
    behind, by the way it ends; [p] is the structure it allocated, [e] the
    status it returns, [w] and [w'] the process before and after. *)
Inductive init_ending (c : collaborators) (p : nat) (w w' : world) (e : Z)
    (t' : list event) : Prop :=
  | InitBadOptions :
      e ≠ 0 → heap w' !! p = None → fbuf_dev w' = None →
      console_fb_arg w' = console_fb_arg w →
      init_ending c p w w' e t'
  | InitFullVga (fb : pci_fbuf_vdev) :
      e = 0 → heap w' !! p = Some fb → vga_full fb ≠ 0 →
      gc_image fb = None → fbuf_dev w' = None →
      console_fb_arg w' = console_fb_arg w →
      FbufVgaNotEnabled ∈ t' →
      init_ending c p w w' e t'
  | InitMapFailed :
      e = -1 → map_memseg_status c ≠ 0 →
      heap w' !! p = None → fbuf_dev w' = None →
      console_fb_arg w' = console_fb_arg w →
      init_ending c p w w' e t'
  | InitRfbFailed :
      e = rfb_init_status c → e ≠ 0 → map_memseg_status c = 0 →
      heap w' !! p = None → fbuf_dev w' = Some p →
      console_fb_arg w' = Some p →
      init_ending c p w w' e t'
  | InitRegistered (fb : pci_fbuf_vdev) :
      e = 0 → rfb_init_status c = 0 → map_memseg_status c = 0 →
      heap w' !! p = Some fb → fbuf_dev w' = Some p →
      console_fb_arg w' = Some p →
      geometry_ok fb → vga_full fb = 0 →
      gc_image fb = console_image c → fb_base fb = ctx_fb_base c →
      fbaddr fb = wrap32 (bar1_addr c) →
      CallConsoleInit (memregs_width fb) (memregs_height fb) (fb_base fb)
        ∈ t' →
      init_ending c p w w' e t'.

(* --------------------------------------------------------------------- *)
(** *** pmtimer.c: creation and removal of the timer device *)
(* --------------------------------------------------------------------- *)

Definition set_io_addr (x : Z) (v : vpmtmr) :=
  {| timer := timer v; io_addr := x; msb_is_set := msb_is_set v |}.

(** The calls [vpmtmr_init] and [vpmtmr_deinit] make to the timer
    facility, the mutex and the port I/O registry, none of which is among
    the sources. *)
Inductive pm_call : Type :=
  | CallAcrnTimerInit
  | CallMutexInit
  | CallUnregisterInout (name : string) (port size : Z)
  | CallAcrnTimerDeinit.

(** The state the two functions work on: the static [vpmtimer], whether
    [ctx->vpmtmr] points to it ([false]: NULL), and the calls made. *)
Record pm_ctx : Type := {
  vpmtimer : vpmtmr;
  ctx_vpmtmr : bool;
  pm_calls : list pm_call
}.

Definition set_vpmtimer (x : vpmtmr) (s : pm_ctx) :=
  {| vpmtimer := x; ctx_vpmtmr := ctx_vpmtmr s; pm_calls := pm_calls s |}.
Definition set_ctx_vpmtmr (x : bool) (s : pm_ctx) :=
  {| vpmtimer := vpmtimer s; ctx_vpmtmr := x; pm_calls := pm_calls s |}.
Definition pm_call_ (x : pm_call) : M pm_ctx unit :=
  modify (λ s, {| vpmtimer := vpmtimer s; ctx_vpmtmr := ctx_vpmtmr s;
                  pm_calls := pm_calls s ++ [x] |}).

(** Run code that works on [*vpmtmr] against the static [vpmtimer]. *)
Definition with_vpmtimer {A} (m : M vpmtmr A) : M pm_ctx A :=
  λ s t,
    match m (vpmtimer s) t with
    | Ret a v t' => Ret a (set_vpmtimer v s) t'
    | Crash f v t' => Crash f (set_vpmtimer v s) t'
    end.

(** [vpmtmr_init(ctx)]; [timer_init_status] is what [acrn_timer_init]
    returns. *)
Definition vpmtmr_init (timer_init_status : Z) : M pm_ctx unit :=
  modify (set_ctx_vpmtmr true) ;;
  pm_call_ CallAcrnTimerInit ;;
  if negb (timer_init_status =? 0) then
    with_vpmtimer (modify (set_io_addr 0))
  else
    with_vpmtimer (modify (set_io_addr IO_PMTMR)) ;;
    with_vpmtimer (modify (set_msb_is_set false)) ;;
    pm_call_ CallMutexInit ;;
    with_vpmtimer (set_pmtmr_val 0).

(** [vpmtmr_deinit(ctx)].  [vpmtmr->io_addr] is read through
    [ctx->vpmtmr]: with a NULL pointer the read is a [BadPointer] fault. *)
Definition vpmtmr_deinit : M pm_ctx unit :=
  s <- get ;;
  (if ctx_vpmtmr s then ret tt else crash BadPointer) ;;
  (if negb (io_addr (vpmtimer s) =? 0) then
     pm_call_ (CallUnregisterInout "pmtimer" (io_addr (vpmtimer s)) 4) ;;
     pm_call_ CallAcrnTimerDeinit
   else ret tt) ;;
  modify (set_ctx_vpmtmr false).

(** Nanoseconds left on the armed timer. *)
Definition remaining_ns (v : vpmtmr) : Z :=
  tv_sec (it_value (remaining (timer v))) * NANOSEC_TICK_RATE
  + tv_nsec (it_value (remaining (timer v))).

(** Ticks left until the carry bit flips, as [get_pmtmr_val] derives them
    from the time left on the timer. *)
Definition remaining_ticks (v : vpmtmr) : Z :=
  wrap32 (wrap64 (wrap64 (remaining_ns v) * PMTMR_TICK_RATE)
          / NANOSEC_TICK_RATE).

(* ===================================================================== *)
(** * Properties *)
(* ===================================================================== *)

(** ** Bytes *)

Lemma Z_of_byte_range (b : byte) : 0 <= Z_of_byte b < 2 ^ 8.
Proof.
  unfold Z_of_byte. pose proof (Byte.to_N_bounded b) as Hb.
  change (2 ^ 8) with 256. lia.
Qed.

Lemma Z_of_byte_of_Z (z : Z) : Z_of_byte (byte_of_Z z) = wrap8 z.
Proof.
  unfold Z_of_byte, byte_of_Z.
  assert (Hr : 0 <= wrap8 z < 256)
    by (unfold wrap8; apply Z.mod_pos_bound; lia).
  destruct (Byte.of_N (Z.to_N (wrap8 z))) as [b|] eqn:E.
  - apply Byte.to_of_N in E. rewrite E. lia.
  - apply Byte.of_N_None_iff in E. lia.
Qed.

(** ** Little-endian loads and stores *)

Lemma length_store_le (m : list byte) (i n : nat) (v : Z) :
  length (store_le m i n v) = length m.
Proof.
  revert m i v. induction n as [|k IH]; intros m i v; simpl; [done|].
  by rewrite IH, length_insert.
Qed.

Lemma lookup_store_le_outside (m : list byte) (i n j : nat) (v : Z) :
  (j < i ∨ i + n ≤ j)%nat → store_le m i n v !! j = m !! j.
Proof.
  revert m i v. induction n as [|k IH]; intros m i v Hj; simpl; [done|].
  rewrite IH by lia. apply list_lookup_insert_ne. lia.
Qed.

Lemma load_store_le_disjoint (m : list byte) (i n i' n' : nat) (v : Z) :
  (i' + n' ≤ i ∨ i + n ≤ i')%nat →
  load_le (store_le m i n v) i' n' = load_le m i' n'.
Proof.
  revert i'. induction n' as [|k IH]; intros i' Hd; simpl; [done|].
  rewrite lookup_store_le_outside by lia. rewrite IH by lia. done.
Qed.

Lemma load_store_le_same (m : list byte) (i n : nat) (v : Z) :
  (i + n ≤ length m)%nat →
  load_le (store_le m i n v) i n = v mod 2 ^ (8 * Z.of_nat n).
Proof.
  revert m i v. induction n as [|k IH]; intros m i v Hlen.
  - simpl. by rewrite Z.mod_1_r.
  - cbn [store_le load_le].
    rewrite lookup_store_le_outside by lia.
    rewrite list_lookup_insert_eq by lia.
    rewrite IH by (rewrite length_insert; lia).
    rewrite Z_of_byte_of_Z. unfold wrap8.
    replace (8 * Z.of_nat (S k)) with (8 + 8 * Z.of_nat k) by lia.
    rewrite Z.pow_add_r by lia.
    rewrite (Z.rem_mul_r v (2 ^ 8) (2 ^ (8 * Z.of_nat k))) by lia.
    done.
Qed.

(** ** BAR 0 of the framebuffer device *)

Lemma wrap64_small (z : Z) : 0 <= z < 2 ^ 64 → wrap64 z = z.
Proof. intros H. unfold wrap64. by apply Z.mod_small. Qed.

Lemma size_switch_default {A} (size : Z) (c1 c2 c4 c8 d : A) :
  size ≠ 1 → size ≠ 2 → size ≠ 4 → size ≠ 8 →
  match size with 1 => c1 | 2 => c2 | 4 => c4 | 8 => c8 | _ => d end = d.
Proof.
  intros H1 H2 H4 H8.
  destruct size as [|p|p]; try done.
  do 4 (try destruct p as [p|p|]); done.
Qed.

Ltac run_monad :=
  change (0 =? 0) with true;
  cbv beta iota delta [bind ret emit modify get put crash assert_].

(** A write the bounds check turns away changes nothing and prints the
    diagnostic. *)
Lemma pci_fbuf_write_rejected offset size value fb t :
  wrap64 (offset + size) > DMEMSZ →
  pci_fbuf_write 0 offset size value fb t
  = Ret tt fb (t ++ [FbufWr offset size value]
                 ++ [FbufWriteTooLarge offset size]).
Proof.
  intros H. unfold pci_fbuf_write. run_monad.
  destruct (wrap64 (offset + size) >? DMEMSZ) eqn:E; [|lia].
  by rewrite <- app_assoc.
Qed.

(** A read the bounds check turns away returns 0. *)
Lemma pci_fbuf_read_rejected offset size fb t :
  wrap64 (offset + size) > DMEMSZ →
  pci_fbuf_read 0 offset size fb t
  = Ret 0 fb (t ++ [FbufReadTooLarge offset size]).
Proof.
  intros H. unfold pci_fbuf_read. run_monad.
  by destruct (wrap64 (offset + size) >? DMEMSZ) eqn:E; [|lia].
Qed.

(** Without wrap-around of [offset + size], every access beyond the 128
    bytes is turned away. *)
Lemma pci_fbuf_out_of_bounds_no_wrap offset size value fb t :
  DMEMSZ < offset + size < 2 ^ 64 →
  pci_fbuf_read 0 offset size fb t
    = Ret 0 fb (t ++ [FbufReadTooLarge offset size])
  ∧ pci_fbuf_write 0 offset size value fb t
    = Ret tt fb (t ++ [FbufWr offset size value]
                   ++ [FbufWriteTooLarge offset size]).
Proof.
  intros H.
  assert (wrap64 (offset + size) > DMEMSZ)
    by (rewrite wrap64_small; unfold DMEMSZ in *; lia).
  split; [by apply pci_fbuf_read_rejected | by apply pci_fbuf_write_rejected].
Qed.

(** The [switch] of [pci_fbuf_write] on an access inside the register file:
    it only replaces [memregs], by a block of the same length. *)
Lemma write_switch_inside offset size value fb t :
  0 <= offset → 0 <= size → offset + size <= DMEMSZ →
  ∃ regs t',
    match size with
    | 1 => store_at offset 1 value
    | 2 => store_at offset 2 value
    | 4 => store_at offset 4 value
    | 8 => store_at offset 8 value
    | _ => emit (FbufWriteUnknownSize size)
    end fb t = Ret tt (set_memregs regs fb) t'
    ∧ length regs = length (memregs fb)
    ∧ (size = 1 ∨ size = 2 ∨ size = 4 ∨ size = 8 →
       regs = store_le (memregs fb) (Z.to_nat offset) (Z.to_nat size) value
       ∧ t' = t).
Proof.
  intros Ho Hs Hb.
  assert (Hin : in_memregs offset size = true).
  { unfold in_memregs. apply andb_true_intro. split; lia. }
  destruct (decide (size = 1 ∨ size = 2 ∨ size = 4 ∨ size = 8)) as [Hc|Hc].
  - exists (store_le (memregs fb) (Z.to_nat offset) (Z.to_nat size) value), t.
    rewrite length_store_le. split; [|done].
    destruct Hc as [ -> | [ -> | [ -> | -> ] ] ]; unfold store_at; rewrite Hin; done.
  - exists (memregs fb), (t ++ [FbufWriteUnknownSize size]).
    rewrite size_switch_default by tauto.
    split; [|split; [done|tauto]].
    unfold emit. by destruct fb.
Qed.

(** What [pci_fbuf_write] does with an access inside the register file:
    the store, then the mode rule on the stored width and height. *)
Lemma pci_fbuf_write_accepted offset size value fb t img :
  0 <= offset → 0 <= size → offset + size <= DMEMSZ →
  gc_image fb = Some img →
  ∃ regs t1,
    length regs = length (memregs fb)
    ∧ (size = 1 ∨ size = 2 ∨ size = 4 ∨ size = 8 →
       regs = store_le (memregs fb) (Z.to_nat offset) (Z.to_nat size) value)
    ∧ pci_fbuf_write 0 offset size value fb t =
      let fb1 := set_memregs regs fb in
      if (vgamode img =? 0) && (memregs_width fb1 =? 0)
         && (memregs_height fb1 =? 0)
      then Ret tt (set_gc_height 0 (set_gc_width 0 (set_vgamode 1 fb1)))
                  (t1 ++ [FbufSwitchVGA])
      else if negb (vgamode img =? 0) && negb (memregs_width fb1 =? 0)
              && negb (memregs_height fb1 =? 0)
      then Ret tt (set_vgamode 0 fb1) (t1 ++ [FbufSwitchVESA])
      else Ret tt fb1 t1.
Proof.
  intros Ho Hs Hb Himg.
  destruct (write_switch_inside offset size value fb
              (t ++ [FbufWr offset size value]) Ho Hs Hb)
    as (regs & t1 & Hsw & Hlen & Hregs).
  exists regs, t1. split; [done|]. split; [intros Hc; by apply Hregs|].
  unfold pci_fbuf_write, deref_gc_image. run_monad.
  cbv beta iota delta [emit] in Hsw.
  assert (E : (wrap64 (offset + size) >? DMEMSZ) = false).
  { rewrite wrap64_small by (unfold DMEMSZ in *; lia). lia. }
  rewrite E, Hsw. cbn [gc_image set_memregs]. rewrite Himg.
  cbn zeta.
  destruct ((vgamode img =? 0) && _ && _); [done|].
  by destruct (negb (vgamode img =? 0) && _ && _).
Qed.

(** C1 (the code departs from the claim): the bounds check adds [size] to
    the 64-bit [offset] with wrap-around.  For offset 2^64 - 1 and size 1
    the access lies beyond the 128 bytes, yet the sum wraps to 0, the check
    lets it pass, and the write stores, the read loads, one byte outside
    the register file instead of being turned away. *)
Theorem C1_bounds_check_wraps (value : Z) (fb : pci_fbuf_vdev)
    (t : list event) :
  let offset := 2 ^ 64 - 1 in
  let size := 1 in
  offset + size > DMEMSZ
  ∧ pci_fbuf_write 0 offset size value fb t
    = Crash (OutsideStore offset size) fb (t ++ [FbufWr offset size value])
  ∧ pci_fbuf_read 0 offset size fb t
    = Crash (OutsideLoad offset size) fb t.
Proof. by cbv zeta. Qed.

(** C10: [pci_fbuf_read] leaves the device as it found it, for every BAR
    index, offset and size: the register file, the display mode and the
    tracked render width and height after the read are those before it,
    whether the read returns a value, is turned away by the bounds check,
    or leaves the register file (and no execution of it performs a
    store). *)
Theorem C10_read_preserves_state (baridx offset size : Z)
    (fb : pci_fbuf_vdev) (t : list event) :
  let o := pci_fbuf_read baridx offset size fb t in
  final_state o = fb
  ∧ ∀ off sz s t', o ≠ Crash (OutsideStore off sz) s t'.
Proof.
  cbv zeta. unfold pci_fbuf_read, load_at.
  cbv beta iota delta [bind ret emit modify get put crash assert_].
  destruct (baridx =? 0); [|done].
  destruct (wrap64 (offset + size) >? DMEMSZ); [done|].
  destruct (decide (size = 1 ∨ size = 2 ∨ size = 4 ∨ size = 8)) as [Hc|Hc].
  - destruct Hc as [ -> | [ -> | [ -> | -> ] ] ];
      match goal with |- context [in_memregs ?a ?b] =>
        destruct (in_memregs a b) end; done.
  - rewrite size_switch_default by tauto. done.
Qed.

(** C5 (as stated, refuted): the device is in VGA mode with width 1024 and
    height 768 (the defaults, before any transition was evaluated); a
    4-byte write at offset 128 is turned away by the bounds check, and the
    device stays in VGA mode although width and height are both
    non-zero. *)
Lemma C5_rejected_write_no_transition :
  ∃ fb' t',
    pci_fbuf_write 0 128 4 0 (sample_fb 1 1024 768 0 0) [] = Ret tt fb' t'
    ∧ display_mode (sample_fb 1 1024 768 0 0) = Some VGA
    ∧ memregs_width fb' = 1024 ∧ memregs_height fb' = 768
    ∧ display_mode fb' = Some VGA
    ∧ display_mode fb'
      ≠ Some (mode_rule VGA (memregs_width fb') (memregs_height fb')).
Proof. eexists _, _. split; [vm_compute; reflexivity|]. by vm_compute. Qed.

(** C5 (amended): a BAR 0 write that passes the bounds check (offset + size
    at most 128) ends with the display mode given by the transition rule on
    the width and height registers as the write leaves them: VESA to VGA
    exactly when the device was in VESA mode and both are zero, VGA to VESA
    exactly when it was in VGA mode and both are non-zero, no transition
    when exactly one of them is zero.  A write that the bounds check turns
    away causes no transition. *)
Theorem C5_mode_transition (offset size value : Z) (fb : pci_fbuf_vdev)
    (t : list event) (m : mode) :
  display_mode fb = Some m →
  0 <= offset → 0 <= size → offset + size < 2 ^ 64 →
  ∃ fb' t',
    pci_fbuf_write 0 offset size value fb t = Ret tt fb' t'
    ∧ display_mode fb'
      = Some (if offset + size >? DMEMSZ then m
              else mode_rule m (memregs_width fb') (memregs_height fb')).
Proof.
  intros Hm Ho Hs Hw.
  destruct (offset + size >? DMEMSZ) eqn:E.
  - eexists _, _. split; [|exact Hm].
    apply pci_fbuf_write_rejected. rewrite wrap64_small; lia.
  - unfold display_mode in Hm.
    destruct (gc_image fb) as [img|] eqn:Himg; [|done].
    injection Hm as Hm.
    destruct (pci_fbuf_write_accepted offset size value fb t img)
      as (regs & t1 & _ & _ & ->); [lia..|done|].
    cbv zeta. unfold mode_rule.
    destruct (vgamode img =? 0) eqn:Ev; subst m; cbn [andb negb].
    + destruct ((memregs_width _ =? 0) && (memregs_height _ =? 0)) eqn:Ec;
        eexists _, _; (split; [done|]).
      * unfold display_mode, memregs_width, memregs_height in *.
        cbn in *. by rewrite Ec.
      * unfold display_mode, memregs_width, memregs_height in *.
        cbn in *. by rewrite Himg, Ec; cbn; rewrite Ev.
    + destruct (negb (memregs_width _ =? 0) && negb (memregs_height _ =? 0))
        eqn:Ec; eexists _, _; (split; [done|]).
      * unfold display_mode, memregs_width, memregs_height in *.
        cbn in *. by rewrite Ec.
      * unfold display_mode, memregs_width, memregs_height in *.
        cbn in *. by rewrite Himg, Ec; cbn; rewrite Ev.
Qed.

Lemma C5_mode_transition_witness :
  ∃ fb' t',
    pci_fbuf_write 0 4 2 100 (sample_fb 1 0 100 0 0) [] = Ret tt fb' t'
    ∧ display_mode fb'
      = Some (if 4 + 2 >? DMEMSZ then VGA
              else mode_rule VGA (memregs_width fb') (memregs_height fb')).
Proof.
  apply (C5_mode_transition 4 2 100 (sample_fb 1 0 100 0 0) [] VGA);
    [reflexivity | lia | lia | lia].
Defined.

(** [pci_fbuf_render] on a device whose image pointer is set. *)
Lemma pci_fbuf_render_spec (fb : pci_fbuf_vdev) (t : list event)
    (img : gfx_ctx_image) :
  gc_image fb = Some img →
  pci_fbuf_render fb t
  = if negb (vga_full fb =? 0) && negb (vgamode img =? 0)
    then Ret tt fb (t ++ [CallVgaRender (vga_dev fb)])
    else if (gc_width fb =? memregs_width fb)
            && (gc_height fb =? memregs_height fb)
    then Ret tt fb t
    else Ret tt (set_gc_height (memregs_height fb)
                   (set_gc_width (memregs_width fb) fb))
                (t ++ [CallGcResize (memregs_width fb) (memregs_height fb)]).
Proof.
  intros Himg. unfold pci_fbuf_render, deref_gc_image. run_monad.
  destruct (vga_full fb =? 0); cbn beta iota; [|rewrite Himg];
    try destruct (vgamode img =? 0); cbn [negb andb];
    try done;
    by destruct (gc_width fb =? memregs_width fb),
                (gc_height fb =? memregs_height fb).
Qed.

(** C6 (as stated, refuted), in both directions.  In VGA mode with width
    0, height 100 and tracked size 100x100, writing 100 to the width
    register switches to VESA mode, but the tracked width and height keep
    their values (they are not reset) and, as they equal the registers, the
    next render callback issues no resize.  In VESA mode with the same
    registers, writing 0 to the height register switches to VGA mode and
    resets the tracked size to 0x0, which is what the registers now hold,
    so the next render callback issues no resize either. *)
Lemma C6_vesa_switch_keeps_tracked_size :
  (∃ fb' t',
     pci_fbuf_write 0 4 2 100 (sample_fb 1 0 100 100 100) [] = Ret tt fb' t'
     ∧ display_mode (sample_fb 1 0 100 100 100) = Some VGA
     ∧ display_mode fb' = Some VESA
     ∧ gc_width fb' = 100 ∧ gc_height fb' = 100
     ∧ pci_fbuf_render fb' [] = Ret tt fb' [])
  ∧ (∃ fb' t',
       pci_fbuf_write 0 6 2 0 (sample_fb 0 0 100 100 100) [] = Ret tt fb' t'
       ∧ display_mode (sample_fb 0 0 100 100 100) = Some VESA
       ∧ display_mode fb' = Some VGA
       ∧ gc_width fb' = 0 ∧ gc_height fb' = 0
       ∧ pci_fbuf_render fb' [] = Ret tt fb' []).
Proof.
  split; eexists _, _; (split; [vm_compute; reflexivity|]); by vm_compute.
Qed.

(** C6 (amended): of the two transitions a BAR 0 write can cause, only
    VESA to VGA resets the tracked render width and height, to 0; they
    then equal the width and height registers (both zero), so the next
    render callback issues no resize: it calls the VGA renderer under full
    VGA and does nothing otherwise.  VGA to VESA leaves the tracked width
    and height as they were, and the next render callback issues a resize
    exactly when they differ from the width and height registers. *)
Theorem C6_transition_tracking (offset size value : Z) (fb : pci_fbuf_vdev)
    (t : list event) (m : mode) :
  display_mode fb = Some m →
  0 <= offset → 0 <= size → offset + size <= DMEMSZ →
  ∃ fb' t',
    pci_fbuf_write 0 offset size value fb t = Ret tt fb' t'
    ∧ (m = VESA → display_mode fb' = Some VGA →
       gc_width fb' = 0 ∧ gc_height fb' = 0
       ∧ ∀ t2, pci_fbuf_render fb' t2
               = Ret tt fb' (t2 ++ if vga_full fb' =? 0 then []
                                   else [CallVgaRender (vga_dev fb')]))
    ∧ (m = VGA → display_mode fb' = Some VESA →
       gc_width fb' = gc_width fb ∧ gc_height fb' = gc_height fb
       ∧ ∀ t2, pci_fbuf_render fb' t2
               = if (gc_width fb =? memregs_width fb')
                    && (gc_height fb =? memregs_height fb')
                 then Ret tt fb' t2
                 else Ret tt (set_gc_height (memregs_height fb')
                                (set_gc_width (memregs_width fb') fb'))
                             (t2 ++ [CallGcResize (memregs_width fb')
                                                  (memregs_height fb')])).
Proof.
  intros Hm Ho Hs Hb.
  unfold display_mode in Hm.
  destruct (gc_image fb) as [img|] eqn:Himg; [|done].
  injection Hm as Hm.
  destruct (pci_fbuf_write_accepted offset size value fb t img)
    as (regs & t1 & _ & _ & ->); [lia..|done|].
  cbv zeta. set (fb1 := set_memregs regs fb).
  destruct (vgamode img =? 0) eqn:Ev; subst m; cbn [andb negb].
  - destruct ((memregs_width fb1 =? 0) && (memregs_height fb1 =? 0)) eqn:Ec;
      eexists _, _; (split; [done|]); (split; [|done]).
    + intros _ _. split; [done|]. split; [done|]. intros t2.
      apply andb_prop in Ec as [Ew%Z.eqb_eq Eh%Z.eqb_eq].
      rewrite (pci_fbuf_render_spec _ _ {| vgamode := 1 |}) by done.
      change (memregs_width (set_gc_height _ _)) with (memregs_width fb1).
      change (memregs_height (set_gc_height _ _)) with (memregs_height fb1).
      rewrite Ew, Eh. cbn.
      destruct (vga_full fb =? 0); cbn; [by rewrite app_nil_r|done].
    + intros _ Hd. exfalso. unfold display_mode in Hd. cbn in Hd.
      rewrite Himg in Hd. cbn in Hd. by rewrite Ev in Hd.
  - destruct (negb (memregs_width fb1 =? 0) && negb (memregs_height fb1 =? 0))
      eqn:Ec; eexists _, _; (split; [done|]); (split; [done|]).
    + intros _ _. split; [done|]. split; [done|]. intros t2.
      rewrite (pci_fbuf_render_spec _ _ {| vgamode := 0 |}) by done.
      cbn [vgamode]. change (0 =? 0) with true.
      by rewrite andb_false_r.
    + intros _ Hd. exfalso. unfold display_mode in Hd. cbn in Hd.
      rewrite Himg in Hd. cbn in Hd. by rewrite Ev in Hd.
Qed.

Lemma C6_transition_tracking_witness :
  ∃ fb' t',
    pci_fbuf_write 0 6 2 0 (sample_fb 0 0 100 100 100) [] = Ret tt fb' t'
    ∧ (VESA = VESA → display_mode fb' = Some VGA →
       gc_width fb' = 0 ∧ gc_height fb' = 0
       ∧ ∀ t2, pci_fbuf_render fb' t2
               = Ret tt fb' (t2 ++ if vga_full fb' =? 0 then []
                                   else [CallVgaRender (vga_dev fb')]))
    ∧ (VESA = VGA → display_mode fb' = Some VESA →
       gc_width fb' = gc_width (sample_fb 0 0 100 100 100)
       ∧ gc_height fb' = gc_height (sample_fb 0 0 100 100 100)
       ∧ ∀ t2, pci_fbuf_render fb' t2
               = if (gc_width (sample_fb 0 0 100 100 100)
                       =? memregs_width fb')
                    && (gc_height (sample_fb 0 0 100 100 100)
                          =? memregs_height fb')
                 then Ret tt fb' t2
                 else Ret tt (set_gc_height (memregs_height fb')
                                (set_gc_width (memregs_width fb') fb'))
                             (t2 ++ [CallGcResize (memregs_width fb')
                                                  (memregs_height fb')])).
Proof.
  apply (C6_transition_tracking 6 2 0 (sample_fb 0 0 100 100 100) [] VESA);
    [reflexivity | lia | lia | unfold DMEMSZ; lia].
Defined.

(** C7: for an access of size 1, 2, 4 or 8 inside the register file, a
    [pci_fbuf_write] of [value] followed by a [pci_fbuf_read] at the same
    offset and size returns [value] truncated to the access size. *)
Theorem C7_write_read_roundtrip (offset size value : Z)
    (fb : pci_fbuf_vdev) (t : list event) (img : gfx_ctx_image) :
  length (memregs fb) = Z.to_nat DMEMSZ →
  gc_image fb = Some img →
  size = 1 ∨ size = 2 ∨ size = 4 ∨ size = 8 →
  0 <= offset → offset + size <= DMEMSZ →
  ∃ fb' t',
    pci_fbuf_write 0 offset size value fb t = Ret tt fb' t'
    ∧ pci_fbuf_read 0 offset size fb' t'
      = Ret (value mod 2 ^ (8 * size)) fb'
            (t' ++ [FbufRd offset size (value mod 2 ^ (8 * size))]).
Proof.
  intros Hlen Himg Hc Ho Hb.
  destruct (pci_fbuf_write_accepted offset size value fb t img)
    as (regs & t1 & _ & Hregs & ->); [lia..|done|].
  specialize (Hregs Hc).
  assert (Hread : ∀ fb' t',
    memregs fb' = regs →
    pci_fbuf_read 0 offset size fb' t'
    = Ret (value mod 2 ^ (8 * size)) fb'
          (t' ++ [FbufRd offset size (value mod 2 ^ (8 * size))])).
  { intros fb' t' Hfb'. unfold pci_fbuf_read. run_monad.
    assert (E : (wrap64 (offset + size) >? DMEMSZ) = false).
    { rewrite wrap64_small by (unfold DMEMSZ in *; lia). lia. }
    rewrite E.
    assert (Hin : in_memregs offset size = true).
    { unfold in_memregs. apply andb_true_intro. split; lia. }
    assert (Hload : load_le (memregs fb') (Z.to_nat offset) (Z.to_nat size)
                    = value mod 2 ^ (8 * size)).
    { rewrite Hfb', Hregs, load_store_le_same.
      - f_equal. f_equal. lia.
      - rewrite Hlen. unfold DMEMSZ in *. lia. }
    destruct Hc as [ -> | [ -> | [ -> | -> ] ] ];
      unfold load_at; rewrite Hin; run_monad; by rewrite Hload. }
  cbv zeta.
  destruct ((vgamode img =? 0) && _ && _);
    [|destruct (negb (vgamode img =? 0) && _ && _)];
    eexists _, _; (split; [done|]); by apply Hread.
Qed.

Lemma C7_write_read_roundtrip_witness :
  ∃ fb' t',
    pci_fbuf_write 0 120 8 (2 ^ 64 - 2) (sample_fb 0 640 480 0 0) []
      = Ret tt fb' t'
    ∧ pci_fbuf_read 0 120 8 fb' t'
      = Ret ((2 ^ 64 - 2) mod 2 ^ (8 * 8)) fb'
            (t' ++ [FbufRd 120 8 ((2 ^ 64 - 2) mod 2 ^ (8 * 8))]).
Proof.
  apply (C7_write_read_roundtrip 120 8 (2 ^ 64 - 2)
           (sample_fb 0 640 480 0 0) [] {| vgamode := 0 |});
    [reflexivity | reflexivity | tauto | lia | unfold DMEMSZ; lia].
Defined.

(** ** The option parser *)

Lemma memregs_width_set_width (v : Z) (fb : pci_fbuf_vdev) :
  (6 ≤ length (memregs fb))%nat →
  memregs_width (set_memregs_width v fb) = wrap16 v.
Proof.
  intros H. unfold memregs_width, set_memregs_width.
  cbn [memregs set_memregs]. by rewrite load_store_le_same by lia.
Qed.

Lemma memregs_height_set_height (v : Z) (fb : pci_fbuf_vdev) :
  (8 ≤ length (memregs fb))%nat →
  memregs_height (set_memregs_height v fb) = wrap16 v.
Proof.
  intros H. unfold memregs_height, set_memregs_height.
  cbn [memregs set_memregs]. by rewrite load_store_le_same by lia.
Qed.

Lemma memregs_width_set_height (v : Z) (fb : pci_fbuf_vdev) :
  memregs_width (set_memregs_height v fb) = memregs_width fb.
Proof.
  unfold memregs_width, set_memregs_height. cbn [memregs set_memregs].
  by rewrite load_store_le_disjoint by lia.
Qed.

Lemma length_memregs_set_width (v : Z) (fb : pci_fbuf_vdev) :
  length (memregs (set_memregs_width v fb)) = length (memregs fb).
Proof. apply length_store_le. Qed.

Lemma length_memregs_set_height (v : Z) (fb : pci_fbuf_vdev) :
  length (memregs (set_memregs_height v fb)) = length (memregs fb).
Proof. apply length_store_le. Qed.

Ltac run_parse :=
  cbn -[memregs_width memregs_height set_memregs_width set_memregs_height
        dm_strtoui dm_strtoi wrap16 Z.gtb Z.eqb].
Ltac step :=
  cbv beta iota delta [bind ret emit modify get put crash pci_fbuf_usage].
Ltac next :=
  cbv beta iota; change (0 =? 0) with true; cbv beta iota.

Lemma parse_one_vga_on (fb : pci_fbuf_vdev) (t : list event) :
  parse_one "vga=on" fb t
  = Ret 0 (set_vga_full 1 (set_vga_enabled 1 fb))
          (t ++ [FbufOption "vga" "on"]).
Proof. reflexivity. Qed.

Lemma parse_one_vga_bogus (fb : pci_fbuf_vdev) (t : list event) :
  parse_one "vga=bogus" fb t
  = Ret (-1) fb (t ++ [FbufOption "vga" "bogus"; FbufUsage "vga"]).
Proof.
  unfold parse_one. run_parse. step. by rewrite <- app_assoc.
Qed.

Lemma parse_one_rfb (fb : pci_fbuf_vdev) (t : list event) :
  parse_one "rfb=127.0.0.1:5900" fb t
  = Ret 0 (set_rfb_host (Some "127.0.0.1") (set_rfb_port 5900 fb))
          (t ++ [FbufOption "rfb" "127.0.0.1:5900"]).
Proof. reflexivity. Qed.

Lemma parse_one_w0 (fb : pci_fbuf_vdev) (t : list event) :
  length (memregs fb) = Z.to_nat DMEMSZ →
  parse_one "w=0" fb t
  = Ret 0 (set_memregs_width 1920 (set_memregs_width 0 fb))
          (t ++ [FbufOption "w" "0"]).
Proof.
  intros Hlen. unfold parse_one. run_parse.
  change (dm_strtoui "0") with (Some (0, EmptyString)). step.
  change (0 =? wrap16 0) with true. step.
  rewrite memregs_width_set_width by (rewrite Hlen; unfold DMEMSZ; lia).
  reflexivity.
Qed.

Lemma parse_one_h0 (fb : pci_fbuf_vdev) (t : list event) :
  length (memregs fb) = Z.to_nat DMEMSZ →
  parse_one "h=0" fb t
  = Ret 0 (set_memregs_height 1080 (set_memregs_height 0 fb))
          (t ++ [FbufOption "h" "0"]).
Proof.
  intros Hlen. unfold parse_one. run_parse.
  change (dm_strtoui "0") with (Some (0, EmptyString)). step.
  change (0 =? wrap16 0) with true. step.
  rewrite memregs_height_set_height by (rewrite Hlen; unfold DMEMSZ; lia).
  reflexivity.
Qed.

Lemma parse_one_w2000 (fb : pci_fbuf_vdev) (t : list event) :
  length (memregs fb) = Z.to_nat DMEMSZ →
  parse_one "w=2000" fb t
  = Ret (-1) (set_memregs_width 2000 fb)
             (t ++ [FbufOption "w" "2000"; FbufUsage "w"]).
Proof.
  intros Hlen. unfold parse_one. run_parse.
  change (dm_strtoui "2000") with (Some (2000, EmptyString)). step.
  change (2000 =? wrap16 2000) with true. step.
  rewrite memregs_width_set_width by (rewrite Hlen; unfold DMEMSZ; lia).
  change (wrap16 2000 >? COLS_MAX) with true. step.
  by rewrite <- app_assoc.
Qed.

(** C8: on a device structure with its 128-byte register block,
    "vga=on,rfb=127.0.0.1:5900,w=0,h=0" is parsed with status 0 and leaves
    vga_enabled = 1, vga_full = 1, rfb_host = "127.0.0.1", rfb_port = 5900,
    width = 1920 and height = 1080; "w=2000" is refused (status -1, usage
    message for "w") with the width register holding 2000, which exceeds
    COLS_MAX = 1920; "vga=bogus" is refused with the usage message for
    "vga". *)
Theorem C8_parse_opts (fb : pci_fbuf_vdev) (t : list event) :
  length (memregs fb) = Z.to_nat DMEMSZ →
  (∃ fb' t',
     pci_fbuf_parse_opts "vga=on,rfb=127.0.0.1:5900,w=0,h=0" fb t
       = Ret 0 fb' t'
     ∧ vga_enabled fb' = 1 ∧ vga_full fb' = 1
     ∧ rfb_host fb' = Some "127.0.0.1"%string ∧ rfb_port fb' = 5900
     ∧ memregs_width fb' = 1920 ∧ memregs_height fb' = 1080)
  ∧ (∃ fb' t',
       pci_fbuf_parse_opts "w=2000" fb t = Ret (-1) fb' t'
       ∧ memregs_width fb' = 2000 ∧ 2000 > COLS_MAX
       ∧ FbufUsage "w" ∈ t')
  ∧ (∃ fb' t',
       pci_fbuf_parse_opts "vga=bogus" fb t = Ret (-1) fb' t'
       ∧ FbufUsage "vga" ∈ t').
Proof.
  intros Hlen.
  assert (H6 : (8 ≤ length (memregs fb))%nat)
    by (rewrite Hlen; unfold DMEMSZ; lia).
  assert (H68 : (6 ≤ 8)%nat) by lia.
  split; [|split].
  - unfold pci_fbuf_parse_opts.
    change (strtok_all _ _ _)
      with ["vga=on"; "rfb=127.0.0.1:5900"; "w=0"; "h=0"]%string.
    cbn [parse_loop]. step.
    rewrite parse_one_vga_on. next.
    rewrite parse_one_rfb. next.
    rewrite parse_one_w0 by done. next.
    rewrite parse_one_h0 by (by rewrite !length_memregs_set_width). next.
    eexists _, _. split; [reflexivity|].
    repeat (split; [reflexivity|]). split.
    + rewrite !memregs_width_set_height.
      rewrite memregs_width_set_width; [done|].
      rewrite length_memregs_set_width. exact (Nat.le_trans _ _ _ H68 H6).
    + rewrite memregs_height_set_height; [done|].
      rewrite length_memregs_set_height, !length_memregs_set_width.
      exact H6.
  - unfold pci_fbuf_parse_opts.
    change (strtok_all _ _ _) with ["w=2000"]%string.
    cbn [parse_loop]. step.
    rewrite parse_one_w2000 by done. cbv beta iota.
    change (-1 =? 0) with false. cbv beta iota.
    eexists _, _. split; [reflexivity|].
    split; [by rewrite memregs_width_set_width by lia|].
    split; [done|]. set_solver.
  - unfold pci_fbuf_parse_opts.
    change (strtok_all _ _ _) with ["vga=bogus"]%string.
    cbn [parse_loop]. step.
    rewrite parse_one_vga_bogus. cbv beta iota.
    change (-1 =? 0) with false. cbv beta iota.
    eexists _, _. split; [reflexivity|]. set_solver.
Qed.

Lemma C8_parse_opts_witness :
  (∃ fb' t',
     pci_fbuf_parse_opts "vga=on,rfb=127.0.0.1:5900,w=0,h=0" fb_zero []
       = Ret 0 fb' t'
     ∧ vga_enabled fb' = 1 ∧ vga_full fb' = 1
     ∧ rfb_host fb' = Some "127.0.0.1"%string ∧ rfb_port fb' = 5900
     ∧ memregs_width fb' = 1920 ∧ memregs_height fb' = 1080)
  ∧ (∃ fb' t',
       pci_fbuf_parse_opts "w=2000" fb_zero [] = Ret (-1) fb' t'
       ∧ memregs_width fb' = 2000 ∧ 2000 > COLS_MAX
       ∧ FbufUsage "w" ∈ t')
  ∧ (∃ fb' t',
       pci_fbuf_parse_opts "vga=bogus" fb_zero [] = Ret (-1) fb' t'
       ∧ FbufUsage "vga" ∈ t').
Proof. apply (C8_parse_opts fb_zero []). reflexivity. Defined.

(** ** The power-management timer *)

Lemma wrap32_small (z : Z) : 0 <= z < 2 ^ 32 → wrap32 z = z.
Proof. intros H. unfold wrap32. by apply Z.mod_small. Qed.

Lemma to_int64_small (z : Z) : 0 <= z < 2 ^ 63 → to_int64 z = z.
Proof.
  intros H. unfold to_int64. rewrite wrap64_small by lia.
  destruct (Z.ltb_spec z (2 ^ 63)); [done|lia].
Qed.

(** The conversion from ticks to a duration and back, as [set_pmtmr_val]
    and [get_pmtmr_val] compute it, loses at most one tick. *)
Lemma tick_roundtrip (c : Z) :
  0 <= c <= PMTMR_NOCARRY_CNTS →
  let sec := c / PMTMR_TICK_RATE in
  let tv_nsecs := wrap64 (c * NANOSEC_TICK_RATE) / PMTMR_TICK_RATE in
  let nsec := to_int64 (tv_nsecs - wrap64 (sec * NANOSEC_TICK_RATE)) in
  let val_nsecs := wrap64 (sec * NANOSEC_TICK_RATE + nsec) in
  let c' :=
    wrap32 (wrap64 (val_nsecs * PMTMR_TICK_RATE) / NANOSEC_TICK_RATE) in
  0 <= nsec < NANOSEC_TICK_RATE ∧ 0 <= c' ∧ c - 1 <= c' <= c.
Proof.
  intros Hc. cbv zeta.
  unfold PMTMR_NOCARRY_CNTS, PMTMR_NOCARRY_MASK, PMTMR_TICK_RATE,
    NANOSEC_TICK_RATE in *.
  assert (H64 : 2 ^ 64 = 18446744073709551616) by done.
  assert (H63 : 2 ^ 63 = 9223372036854775808) by done.
  assert (H32 : 2 ^ 32 = 4294967296) by done.
  rewrite (wrap64_small (c * 1000000000)) by lia.
  set (q := c * 1000000000 / 3579545).
  set (s := c / 3579545).
  assert (Hq : 3579545 * q <= c * 1000000000 < 3579545 * q + 3579545).
  { subst q. pose proof (Z.div_mod (c * 1000000000) 3579545 ltac:(lia)).
    pose proof (Z.mod_pos_bound (c * 1000000000) 3579545 ltac:(lia)). lia. }
  assert (Hs : 3579545 * s <= c < 3579545 * s + 3579545).
  { subst s. pose proof (Z.div_mod c 3579545 ltac:(lia)).
    pose proof (Z.mod_pos_bound c 3579545 ltac:(lia)). lia. }
  assert (Hqs : s * 1000000000 <= q < s * 1000000000 + 1000000000) by lia.
  rewrite (wrap64_small (s * 1000000000)) by lia.
  rewrite (to_int64_small (q - s * 1000000000)) by lia.
  replace (s * 1000000000 + (q - s * 1000000000)) with q by lia.
  rewrite (wrap64_small q) by lia.
  rewrite (wrap64_small (q * 3579545)) by lia.
  set (c' := q * 3579545 / 1000000000).
  assert (Hc' : 1000000000 * c' <= q * 3579545
                < 1000000000 * c' + 1000000000).
  { subst c'. pose proof (Z.div_mod (q * 3579545) 1000000000 ltac:(lia)).
    pose proof (Z.mod_pos_bound (q * 3579545) 1000000000 ltac:(lia)). lia. }
  rewrite (wrap32_small c') by lia.
  lia.
Qed.

Lemma land_carry_mask (v : Z) :
  Z.land v PMTMR_CARRY_MASK
  = if Z.testbit v 31 then PMTMR_CARRY_MASK else 0.
Proof.
  apply Z.bits_inj'. intros n Hn. rewrite Z.land_spec.
  change PMTMR_CARRY_MASK with (2 ^ 31).
  rewrite Z.pow2_bits_eqb by lia.
  destruct (Z.eqb_spec 31 n) as [<-|Hne].
  - destruct (Z.testbit v 31); [by rewrite Z.pow2_bits_true|done].
  - rewrite andb_false_r.
    destruct (Z.testbit v 31);
      [by rewrite Z.pow2_bits_false by lia | by rewrite Z.bits_0].
Qed.

Lemma land_nocarry_mask (v : Z) :
  Z.land v PMTMR_NOCARRY_MASK = v mod 2 ^ 31.
Proof. change PMTMR_NOCARRY_MASK with (Z.ones 31). by apply Z.land_ones. Qed.

Lemma testbit_31_small (x : Z) : 0 <= x < 2 ^ 31 → Z.testbit x 31 = false.
Proof.
  intros H. apply Z.testbit_false; [lia|]. by rewrite Z.div_small.
Qed.

(** C2: for every 32-bit value [v], [set_pmtmr_val v] followed by
    [get_pmtmr_val] while the time remaining on the armed timer is still
    the duration just set returns a value whose bit 31 is bit 31 of [v]
    and whose low 31 bits differ from those of [v] by at most one tick. *)
Theorem C2_set_get_roundtrip (v : Z) (vp : vpmtmr) (t : list event) :
  0 <= v < 2 ^ 32 →
  ∃ r vp' t',
    (set_pmtmr_val v ;; get_pmtmr_val) vp t = Ret r vp' t'
    ∧ 0 <= r < 2 ^ 32
    ∧ Z.testbit r 31 = Z.testbit v 31
    ∧ Z.abs (Z.land r PMTMR_NOCARRY_MASK - Z.land v PMTMR_NOCARRY_MASK) <= 1.
Proof.
  intros Hv.
  pose proof (land_nocarry_mask v) as HL.
  assert (HLr : 0 <= v mod 2 ^ 31 < 2 ^ 31) by (apply Z.mod_pos_bound; lia).
  assert (H31 : 2 ^ 31 = 2147483648) by done.
  assert (H32 : 2 ^ 32 = 4294967296) by done.
  assert (Hc : 0 <= PMTMR_NOCARRY_CNTS - Z.land v PMTMR_NOCARRY_MASK
               <= PMTMR_NOCARRY_CNTS).
  { rewrite HL. unfold PMTMR_NOCARRY_CNTS, PMTMR_NOCARRY_MASK. lia. }
  pose proof (tick_roundtrip _ Hc) as Hrt. cbv zeta in Hrt.
  unfold set_pmtmr_val, get_pmtmr_val, acrn_timer_settime,
    acrn_timer_gettime.
  rewrite (wrap32_small (PMTMR_NOCARRY_CNTS - _))
    by (unfold PMTMR_NOCARRY_CNTS, PMTMR_NOCARRY_MASK in *; lia).
  rewrite land_carry_mask.
  set (c := PMTMR_NOCARRY_CNTS - Z.land v PMTMR_NOCARRY_MASK) in *.
  destruct Hrt as (_ & Hc0 & Hc1).
  set (c' := wrap32 _) in Hc0, Hc1.
  assert (Hm : Z.land c' PMTMR_NOCARRY_MASK = c').
  { rewrite land_nocarry_mask. apply Z.mod_small.
    unfold PMTMR_NOCARRY_CNTS, PMTMR_NOCARRY_MASK in *. lia. }
  assert (Ht : wrap32 (PMTMR_NOCARRY_CNTS - Z.land c' PMTMR_NOCARRY_MASK)
               = PMTMR_NOCARRY_CNTS - c').
  { rewrite Hm. apply wrap32_small.
    unfold PMTMR_NOCARRY_CNTS, PMTMR_NOCARRY_MASK in *. lia. }
  assert (Htr : 0 <= PMTMR_NOCARRY_CNTS - c' < 2 ^ 31).
  { unfold PMTMR_NOCARRY_CNTS, PMTMR_NOCARRY_MASK in *. lia. }
  destruct (Z.testbit v 31) eqn:Eb.
  - change (negb (PMTMR_CARRY_MASK =? 0)) with true. run_monad.
    cbn [msb_is_set set_msb_is_set set_timer timer remaining it_value
         tv_sec tv_nsec].
    fold c'. rewrite Ht.
    eexists _, _, _. split; [reflexivity|].
    assert (Hdis : Z.land (PMTMR_NOCARRY_CNTS - c') (2 ^ 31) = 0).
    { apply Z.bits_inj'. intros n Hn.
      rewrite Z.land_spec, Z.bits_0, Z.pow2_bits_eqb by lia.
      destruct (Z.eqb_spec 31 n) as [<-|Hne]; [|by rewrite andb_false_r].
      by rewrite testbit_31_small. }
    assert (Hlor : Z.lor (PMTMR_NOCARRY_CNTS - c') PMTMR_CARRY_MASK
                   = PMTMR_NOCARRY_CNTS - c' + 2 ^ 31).
    { change PMTMR_CARRY_MASK with (2 ^ 31).
      rewrite <- (Z.lxor_lor _ _ Hdis). symmetry.
      by apply Z.add_nocarry_lxor. }
    split; [rewrite Hlor; lia|]. split.
    + rewrite Z.lor_spec. change PMTMR_CARRY_MASK with (2 ^ 31).
      rewrite Z.pow2_bits_true by lia. by rewrite orb_true_r.
    + rewrite Z.land_lor_distr_l.
      change (Z.land PMTMR_CARRY_MASK PMTMR_NOCARRY_MASK) with 0.
      rewrite Z.lor_0_r, !land_nocarry_mask.
      rewrite (Z.mod_small (PMTMR_NOCARRY_CNTS - c')) by lia.
      subst c. rewrite HL in Hc1. lia.
  - change (negb (0 =? 0)) with false. run_monad.
    cbn [msb_is_set set_msb_is_set set_timer timer remaining it_value
         tv_sec tv_nsec].
    fold c'. rewrite Ht.
    change (wrap32 (Z.lnot PMTMR_CARRY_MASK)) with PMTMR_NOCARRY_MASK.
    eexists _, _, _. split; [reflexivity|].
    rewrite <- Z.land_assoc, Z.land_diag, !land_nocarry_mask.
    rewrite (Z.mod_small (PMTMR_NOCARRY_CNTS - c')) by lia.
    split; [lia|]. split.
    + by apply testbit_31_small.
    + subst c. rewrite HL in Hc1. lia.
Qed.

Lemma C2_set_get_roundtrip_witness :
  ∃ r vp' t',
    (set_pmtmr_val 0x80000005 ;; get_pmtmr_val) vpmtmr_idle [] = Ret r vp' t'
    ∧ 0 <= r < 2 ^ 32
    ∧ Z.testbit r 31 = Z.testbit 0x80000005 31
    ∧ Z.abs (Z.land r PMTMR_NOCARRY_MASK
             - Z.land 0x80000005 PMTMR_NOCARRY_MASK) <= 1.
Proof. apply (C2_set_get_roundtrip 0x80000005 vpmtmr_idle []). lia. Defined.

(** C9: a guest write ([in] = 0) to the timer port prints the "invalid
    write" diagnostic and returns 0; [eax], the latched carry flag and the
    armed timer are what they were. *)
Theorem C9_pmtmr_write_dropped (port bytes eax : Z) (vp : vpmtmr)
    (t : list event) :
  vpmtmr_io_handler 0 port bytes eax vp t
  = Ret (0, eax) vp (t ++ [PmtmrInvalidWrite]).
Proof. reflexivity. Qed.

(** ** Device initialisation *)

(** C3 (the code departs from the claim): with "vga=on" the parser
    succeeds, [pci_fbuf_init] prints "VGA rendering not enabled" and jumps
    to [done] with [error] still 0: it returns 0, the device structure
    stays allocated behind [dev->arg] with no image attached, and nothing
    is mapped or registered. *)
Theorem C3_full_vga_init_returns_zero :
  ∃ w' t' fb,
    pci_fbuf_init (collaborators_ok 0) 7 "vga=on" world0 [] = Ret 0 w' t'
    ∧ FbufVgaNotEnabled ∈ t'
    ∧ fbuf_dev w' = None
    ∧ dev_arg w' = Some 1%nat
    ∧ heap w' !! 1%nat = Some fb
    ∧ vga_full fb = 1 ∧ gc_image fb = None.
Proof.
  eexists _, _, _. split; [vm_compute; reflexivity|].
  split; [set_solver|]. by vm_compute.
Qed.

(** C4 (the code departs from the claim): when [rfb_init] fails,
    [pci_fbuf_init] returns its status after freeing the device structure,
    but [fbuf_dev] and the render callback registered with the console
    still point to the freed structure. *)
Theorem C4_rfb_failure_leaves_singleton_set :
  ∃ w' t',
    pci_fbuf_init (collaborators_ok (-1)) 7 "rfb=127.0.0.1:5900" world0 []
      = Ret (-1) w' t'
    ∧ fbuf_dev w' = Some 1%nat
    ∧ console_fb_arg w' = Some 1%nat
    ∧ heap w' !! 1%nat = None.
Proof. eexists _, _. split; [vm_compute; reflexivity|]. by vm_compute. Qed.

(** The other failures of [pci_fbuf_init] do leave nothing behind: a
    refused option string, and a failed mapping of the frame buffer. *)
Lemma init_bad_option_unregistered :
  ∃ w' t',
    pci_fbuf_init (collaborators_ok 0) 7 "w=2000" world0 [] = Ret (-1) w' t'
    ∧ fbuf_dev w' = None ∧ console_fb_arg w' = None
    ∧ heap w' !! 1%nat = None.
Proof. eexists _, _. split; [vm_compute; reflexivity|]. by vm_compute. Qed.

Lemma init_mapseg_failure_unregistered :
  ∃ w' t',
    pci_fbuf_init
      {| bar1_addr := 0xc0000000; ctx_fb_base := 0x7f0000000000;
         alloc_bar0_status := 0; alloc_bar1_status := 0;
         add_msicap_status := 0; map_memseg_status := -1;
         vga_init_result := 0x5000;
         console_image := Some {| vgamode := 1 |};
         rfb_init_status := 0 |} 7 "rfb=127.0.0.1:5900" world0 []
      = Ret (-1) w' t'
    ∧ fbuf_dev w' = None ∧ console_fb_arg w' = None
    ∧ heap w' !! 1%nat = None.
Proof. eexists _, _. split; [vm_compute; reflexivity|]. by vm_compute. Qed.

(** With every collaborator succeeding the device is registered. *)
Lemma init_success_registers :
  ∃ w' t' fb,
    pci_fbuf_init (collaborators_ok 0) 7 "rfb=127.0.0.1:5900" world0 []
      = Ret 0 w' t'
    ∧ fbuf_dev w' = Some 1%nat ∧ heap w' !! 1%nat = Some fb
    ∧ memregs_width fb = 1024 ∧ memregs_height fb = 768
    ∧ display_mode fb = Some VGA.
Proof.
  eexists _, _, _. split; [vm_compute; reflexivity|]. by vm_compute.
Qed.

(* ===================================================================== *)
(** * Further properties *)
(* ===================================================================== *)

(** ** Little-endian access, continued *)

Lemma load_le_range (m : list byte) (i n : nat) :
  0 <= load_le m i n < 2 ^ (8 * Z.of_nat n).
Proof.
  revert i. induction n as [|k IH]; intros i.
  - simpl. lia.
  - cbn [load_le]. specialize (IH (S i)).
    replace (8 * Z.of_nat (S k)) with (8 + 8 * Z.of_nat k) by lia.
    rewrite Z.pow_add_r by lia.
    assert (Hb : 0 <= match m !! i with Some b => Z_of_byte b | None => 0 end
                 < 2 ^ 8).
    { destruct (m !! i) as [b|]; [apply Z_of_byte_range|lia]. }
    nia.
Qed.

Lemma load_le_split (m : list byte) (i a b : nat) :
  load_le m i (a + b)
  = load_le m i a + 2 ^ (8 * Z.of_nat a) * load_le m (i + a) b.
Proof.
  revert i. induction a as [|k IH]; intros i.
  - cbn [load_le Nat.add]. rewrite Nat.add_0_r. change (2 ^ (8 * Z.of_nat 0)) with 1.
    lia.
  - cbn [load_le Nat.add]. rewrite IH.
    replace (i + S k)%nat with (S i + k)%nat by lia.
    replace (8 * Z.of_nat (S k)) with (8 + 8 * Z.of_nat k) by lia.
    rewrite Z.pow_add_r by lia. lia.
Qed.

Lemma supported_size_cases (size : Z) :
  supported_size size = true ↔ size = 1 ∨ size = 2 ∨ size = 4 ∨ size = 8.
Proof. unfold supported_size. rewrite !orb_true_iff, !Z.eqb_eq. tauto. Qed.

(** ** BAR 0, continued *)

(** [pci_fbuf_read] on an access of supported size inside the register
    file. *)
Lemma pci_fbuf_read_inside offset size fb t :
  supported_size size = true → 0 <= offset → offset + size <= DMEMSZ →
  pci_fbuf_read 0 offset size fb t
  = Ret (load_le (memregs fb) (Z.to_nat offset) (Z.to_nat size)) fb
        (t ++ [FbufRd offset size
                 (load_le (memregs fb) (Z.to_nat offset) (Z.to_nat size))]).
Proof.
  intros Hc%supported_size_cases Ho Hb.
  unfold pci_fbuf_read. run_monad.
  assert (E : (wrap64 (offset + size) >? DMEMSZ) = false).
  { rewrite wrap64_small by (unfold DMEMSZ in *; lia). lia. }
  rewrite E.
  assert (Hin : in_memregs offset size = true).
  { unfold in_memregs. apply andb_true_intro. split; lia. }
  destruct Hc as [ -> | [ -> | [ -> | -> ] ] ];
    unfold load_at; rewrite Hin; by run_monad.
Qed.

(** [pci_fbuf_read] on an access inside the register file whose size has
    no case in the [switch]. *)
Lemma pci_fbuf_read_unknown_size offset size fb t :
  supported_size size = false → 0 <= offset + size <= DMEMSZ →
  pci_fbuf_read 0 offset size fb t
  = Ret 0 fb (t ++ [FbufReadUnknownSize size] ++ [FbufRd offset size 0]).
Proof.
  intros Hc Hb.
  assert (Hn : ¬ (size = 1 ∨ size = 2 ∨ size = 4 ∨ size = 8))
    by (rewrite <- supported_size_cases, Hc; done).
  unfold pci_fbuf_read. run_monad.
  assert (E : (wrap64 (offset + size) >? DMEMSZ) = false).
  { rewrite wrap64_small by (unfold DMEMSZ in *; lia). lia. }
  rewrite E, size_switch_default by tauto.
  by rewrite <- app_assoc.
Qed.

(** X1: an access inside the register file whose size is not 1, 2, 4 or 8
    is not turned away: the read returns 0 and the write stores nothing,
    each after printing the "unknown size" diagnostic. *)
Theorem unknown_size_access_is_ignored (offset size value : Z)
    (fb : pci_fbuf_vdev) (t : list event) (img : gfx_ctx_image) :
  supported_size size = false →
  0 <= offset → 0 <= size → offset + size <= DMEMSZ →
  gc_image fb = Some img →
  (∃ t', pci_fbuf_read 0 offset size fb t = Ret 0 fb t'
         ∧ FbufReadUnknownSize size ∈ t')
  ∧ (∃ fb' t', pci_fbuf_write 0 offset size value fb t = Ret tt fb' t'
               ∧ memregs fb' = memregs fb
               ∧ FbufWriteUnknownSize size ∈ t').
Proof.
  intros Hc Ho Hs Hb Himg.
  assert (Hn : ¬ (size = 1 ∨ size = 2 ∨ size = 4 ∨ size = 8))
    by (rewrite <- supported_size_cases, Hc; done).
  split.
  - eexists. rewrite pci_fbuf_read_unknown_size by (done || lia).
    split; [done|]. set_solver.
  - unfold pci_fbuf_write, deref_gc_image. run_monad.
    assert (E : (wrap64 (offset + size) >? DMEMSZ) = false).
    { rewrite wrap64_small by (unfold DMEMSZ in *; lia). lia. }
    rewrite E, size_switch_default by tauto. rewrite Himg.
    destruct ((vgamode img =? 0) && _ && _);
      [|destruct (negb (vgamode img =? 0) && _ && _)];
      eexists _, _; (split; [done|]); (split; [done|]); set_solver.
Qed.

Lemma unknown_size_access_is_ignored_witness :
  (∃ t', pci_fbuf_read 0 4 3 (sample_fb 0 640 480 0 0) []
           = Ret 0 (sample_fb 0 640 480 0 0) t'
         ∧ FbufReadUnknownSize 3 ∈ t')
  ∧ (∃ fb' t', pci_fbuf_write 0 4 3 77 (sample_fb 0 640 480 0 0) []
                 = Ret tt fb' t'
               ∧ memregs fb' = memregs (sample_fb 0 640 480 0 0)
               ∧ FbufWriteUnknownSize 3 ∈ t').
Proof.
  apply (unknown_size_access_is_ignored 4 3 77 (sample_fb 0 640 480 0 0) []
           {| vgamode := 0 |});
    [reflexivity | lia | lia | unfold DMEMSZ; lia | reflexivity].
Defined.

(** [pci_fbuf_write] on any access inside the register file, with the
    register block it leaves spelled out. *)
Lemma pci_fbuf_write_inside offset size value fb t img :
  0 <= offset → 0 <= size → offset + size <= DMEMSZ →
  gc_image fb = Some img →
  ∃ t1,
    pci_fbuf_write 0 offset size value fb t =
    let fb1 :=
      set_memregs
        (if supported_size size
         then store_le (memregs fb) (Z.to_nat offset) (Z.to_nat size) value
         else memregs fb) fb in
    if (vgamode img =? 0) && (memregs_width fb1 =? 0)
       && (memregs_height fb1 =? 0)
    then Ret tt (set_gc_height 0 (set_gc_width 0 (set_vgamode 1 fb1)))
                (t1 ++ [FbufSwitchVGA])
    else if negb (vgamode img =? 0) && negb (memregs_width fb1 =? 0)
            && negb (memregs_height fb1 =? 0)
    then Ret tt (set_vgamode 0 fb1) (t1 ++ [FbufSwitchVESA])
    else Ret tt fb1 t1.
Proof.
  intros Ho Hs Hb Himg.
  assert (E : (wrap64 (offset + size) >? DMEMSZ) = false).
  { rewrite wrap64_small by (unfold DMEMSZ in *; lia). lia. }
  assert (Hin : in_memregs offset size = true).
  { unfold in_memregs. apply andb_true_intro. split; lia. }
  destruct (supported_size size) eqn:Hc.
  - exists (t ++ [FbufWr offset size value]).
    apply supported_size_cases in Hc.
    unfold pci_fbuf_write, deref_gc_image. run_monad. rewrite E.
    destruct Hc as [ -> | [ -> | [ -> | -> ] ] ];
      unfold store_at; rewrite Hin; run_monad;
      cbn [gc_image set_memregs]; rewrite Himg; cbv zeta;
      (destruct ((vgamode img =? 0) && _ && _); [done|]);
      by destruct (negb (vgamode img =? 0) && _ && _).
  - exists ((t ++ [FbufWr offset size value]) ++ [FbufWriteUnknownSize size]).
    assert (Hn : ¬ (size = 1 ∨ size = 2 ∨ size = 4 ∨ size = 8))
      by (rewrite <- supported_size_cases, Hc; done).
    unfold pci_fbuf_write, deref_gc_image. run_monad.
    rewrite E, size_switch_default by tauto. rewrite Himg. cbv zeta.
    replace (set_memregs (memregs fb) fb) with fb by (by destruct fb).
    destruct ((vgamode img =? 0) && _ && _); [done|].
    by destruct (negb (vgamode img =? 0) && _ && _).
Qed.






Lemma load_store_le_low (m : list byte) (i a b : nat) (v : Z) :
  (i + (a + b) ≤ length m)%nat →
  load_le (store_le m i (a + b) v) i a = v mod 2 ^ (8 * Z.of_nat a)
  ∧ load_le (store_le m i (a + b) v) (i + a) b
    = (v / 2 ^ (8 * Z.of_nat a)) mod 2 ^ (8 * Z.of_nat b).
Proof.
  intros Hlen.
  pose proof (load_store_le_same m i (a + b) v Hlen) as Hs.
  rewrite load_le_split in Hs.
  pose proof (load_le_range (store_le m i (a + b) v) i a) as Hlo.
  pose proof (load_le_range (store_le m i (a + b) v) (i + a) b) as Hhi.
  set (lo := load_le _ i a) in *. set (hi := load_le _ (i + a) b) in *.
  replace (8 * Z.of_nat (a + b)) with (8 * Z.of_nat a + 8 * Z.of_nat b)
    in Hs by lia.
  rewrite Z.pow_add_r in Hs by lia.
  set (A := 2 ^ (8 * Z.of_nat a)) in *. set (B := 2 ^ (8 * Z.of_nat b)) in *.
  assert (HA : 0 < A) by (apply Z.pow_pos_nonneg; lia).
  assert (HB : 0 < B) by (apply Z.pow_pos_nonneg; lia).
  rewrite Z.rem_mul_r in Hs by lia.
  pose proof (Z.mod_pos_bound v A HA).
  pose proof (Z.mod_pos_bound (v / A) B HB).
  assert (hi = (v / A) mod B) by nia.
  split; [nia|done].
Qed.

(** X5: the register layout as a guest sees it.  On a device with its
    128-byte register block, one 4-byte write at offset 4 sets the width
    register to the low and the height register to the high 16 bits of the
    value. *)
Theorem dword_write_sets_width_and_height (value : Z) (fb : pci_fbuf_vdev)
    (t : list event) (img : gfx_ctx_image) :
  length (memregs fb) = Z.to_nat DMEMSZ →
  gc_image fb = Some img →
  ∃ fb' t',
    pci_fbuf_write 0 4 4 value fb t = Ret tt fb' t'
    ∧ memregs_width fb' = value mod 2 ^ 16
    ∧ memregs_height fb' = (value / 2 ^ 16) mod 2 ^ 16.
Proof.
  intros Hlen Himg.
  destruct (pci_fbuf_write_inside 4 4 value fb t img) as [t1 ->];
    [lia|lia|unfold DMEMSZ; lia|done|].
  cbv zeta. change (supported_size 4) with true. cbn iota.
  set (fb1 := set_memregs _ fb).
  assert (Hwh : memregs_width fb1 = value mod 2 ^ 16
                ∧ memregs_height fb1 = (value / 2 ^ 16) mod 2 ^ 16).
  { unfold memregs_width, memregs_height, fb1. cbn [memregs set_memregs].
    change (Z.to_nat 4) with (2 + 2)%nat.
    change 6%nat with (4 + 2)%nat.
    apply (load_store_le_low (memregs fb) 4 2 2 value).
    rewrite Hlen. unfold DMEMSZ. lia. }
  destruct ((vgamode img =? 0) && _ && _);
    [|destruct (negb (vgamode img =? 0) && _ && _)];
    eexists _, _; (split; [done|]); exact Hwh.
Qed.

Lemma dword_write_sets_width_and_height_witness :
  ∃ fb' t',
    pci_fbuf_write 0 4 4 0x01E00280 (sample_fb 1 0 0 0 0) [] = Ret tt fb' t'
    ∧ memregs_width fb' = 0x01E00280 mod 2 ^ 16
    ∧ memregs_height fb' = (0x01E00280 / 2 ^ 16) mod 2 ^ 16.
Proof.
  apply (dword_write_sets_width_and_height 0x01E00280 (sample_fb 1 0 0 0 0)
           [] {| vgamode := 1 |}); reflexivity.
Defined.

(** X6: reads of different sizes agree.  For n = 1, 2 or 4, the value read
    with size 2n at an offset inside the register file is the value read
    with size n at that offset plus 2^(8n) times the value read with size
    n at offset + n (little-endian). *)
Theorem wide_read_combines_narrow_reads (offset n : Z) (fb : pci_fbuf_vdev)
    (t t1 t2 : list event) :
  n = 1 ∨ n = 2 ∨ n = 4 →
  0 <= offset → offset + 2 * n <= DMEMSZ →
  ∃ lo hi t' t1' t2',
    pci_fbuf_read 0 offset n fb t1 = Ret lo fb t1'
    ∧ pci_fbuf_read 0 (offset + n) n fb t2 = Ret hi fb t2'
    ∧ pci_fbuf_read 0 offset (2 * n) fb t
      = Ret (lo + 2 ^ (8 * n) * hi) fb t'.
Proof.
  intros Hn Ho Hb.
  assert (Hs1 : supported_size n = true)
    by (apply supported_size_cases; tauto).
  assert (Hs2 : supported_size (2 * n) = true)
    by (apply supported_size_cases; lia).
  rewrite (pci_fbuf_read_inside offset n) by (done || lia).
  rewrite (pci_fbuf_read_inside (offset + n) n) by (done || lia).
  rewrite (pci_fbuf_read_inside offset (2 * n)) by (done || lia).
  eexists _, _, _, _, _. split; [done|]. split; [done|].
  f_equal.
  replace (Z.to_nat (2 * n)) with (Z.to_nat n + Z.to_nat n)%nat by lia.
  rewrite load_le_split.
  replace (Z.to_nat (offset + n)) with (Z.to_nat offset + Z.to_nat n)%nat
    by lia.
  do 3 f_equal. lia.
Qed.

Lemma wide_read_combines_narrow_reads_witness :
  ∃ lo hi t' t1' t2',
    pci_fbuf_read 0 4 2 (sample_fb 0 640 480 0 0) [] 
      = Ret lo (sample_fb 0 640 480 0 0) t1'
    ∧ pci_fbuf_read 0 (4 + 2) 2 (sample_fb 0 640 480 0 0) []
      = Ret hi (sample_fb 0 640 480 0 0) t2'
    ∧ pci_fbuf_read 0 4 (2 * 2) (sample_fb 0 640 480 0 0) []
      = Ret (lo + 2 ^ (8 * 2) * hi) (sample_fb 0 640 480 0 0) t'.
Proof.
  apply (wide_read_combines_narrow_reads 4 2 (sample_fb 0 640 480 0 0)
           [] [] []); [tauto | lia | unfold DMEMSZ; lia].
Defined.

(** X7: every value [pci_fbuf_read] returns fits the access: it is below
    2^(8 size) for the sizes 1, 2, 4 and 8, and 0 in all other cases. *)
Theorem read_value_fits_size (baridx offset size v : Z)
    (fb fb' : pci_fbuf_vdev) (t t' : list event) :
  pci_fbuf_read baridx offset size fb t = Ret v fb' t' →
  if supported_size size then 0 <= v < 2 ^ (8 * size) else v = 0.
Proof.
  unfold pci_fbuf_read, load_at.
  cbv beta iota delta [bind ret emit modify get put crash assert_].
  destruct (baridx =? 0); [|done].
  destruct (wrap64 (offset + size) >? DMEMSZ).
  { intros [= <- _ _]. destruct (supported_size size) eqn:Hc; [|done].
    apply supported_size_cases in Hc. split; [done|].
    apply Z.pow_pos_nonneg; lia. }
  destruct (supported_size size) eqn:Hc.
  - apply supported_size_cases in Hc.
    destruct Hc as [ -> | [ -> | [ -> | -> ] ] ];
      match goal with |- context [in_memregs ?a ?b] =>
        destruct (in_memregs a b) end; cbv beta iota; try done;
      match goal with |- context [load_le ?m ?i ?k] =>
        pose proof (load_le_range m i k) as Hr;
        set (x := load_le m i k) in *; clearbody x end;
      intros [= <- _ _]; exact Hr.
  - assert (Hn : ¬ (size = 1 ∨ size = 2 ∨ size = 4 ∨ size = 8))
      by (rewrite <- supported_size_cases, Hc; done).
    rewrite size_switch_default by tauto. by intros [= <- _ _].
Qed.

Lemma read_value_fits_size_witness :
  if supported_size 2 then 0 <= 640 < 2 ^ (8 * 2) else 640 = 0.
Proof.
  apply (read_value_fits_size 0 4 2 640 (sample_fb 0 640 480 0 0)
           (sample_fb 0 640 480 0 0) [] [FbufRd 4 2 640]).
  reflexivity.
Defined.

(** ** The render callback *)

Ltac simpl_fields :=
  cbn [final_state dev memregs rfb_host rfb_password rfb_port rfb_wait
       vga_enabled vga_full fbaddr fb_base gc_width gc_height vga_dev
       gc_image set_dev set_memregs set_rfb_host set_rfb_password
       set_rfb_port set_rfb_wait set_vga_enabled set_vga_full set_fbaddr
       set_fb_base set_gc_width set_gc_height set_vga_dev set_gc_image
       set_vgamode].
Ltac frame_done :=
  repeat split; try reflexivity; try assumption;
  first [left; split; reflexivity | right; split; reflexivity].

(** X8: [pci_fbuf_render] touches nothing but the tracked render size, and
    that only to set it to the width and height registers: the register
    file, the image (display mode) and the configuration are as before,
    however the callback ends. *)
Theorem render_updates_only_tracked_size (fb : pci_fbuf_vdev)
    (t : list event) :
  let fb' := final_state (pci_fbuf_render fb t) in
  memregs fb' = memregs fb ∧ gc_image fb' = gc_image fb
  ∧ same_config fb' fb
  ∧ (gc_width fb' = gc_width fb ∧ gc_height fb' = gc_height fb
     ∨ gc_width fb' = memregs_width fb ∧ gc_height fb' = memregs_height fb).
Proof.
  cbv zeta. unfold pci_fbuf_render, deref_gc_image.
  cbv beta iota delta [bind ret emit modify get put crash assert_].
  destruct (vga_full fb =? 0); cbv beta iota.
  - destruct (negb (gc_width fb =? memregs_width fb)
              || negb (gc_height fb =? memregs_height fb));
      simpl_fields; unfold same_config; simpl_fields; frame_done.
  - destruct (gc_image fb) as [img|] eqn:Himg; cbv beta iota;
      [|simpl_fields; unfold same_config; simpl_fields; frame_done].
    destruct (negb (vgamode img =? 0)); cbv beta iota;
      [simpl_fields; unfold same_config; simpl_fields; frame_done|].
    destruct (negb (gc_width fb =? memregs_width fb)
              || negb (gc_height fb =? memregs_height fb));
      simpl_fields; unfold same_config; simpl_fields; frame_done.
Qed.

(** X9: rendering twice is rendering once.  When [pci_fbuf_render] returns,
    calling it again in the state it left changes nothing and requests no
    resize: it either does nothing or calls the VGA renderer again. *)
Theorem render_is_idempotent (fb fb1 : pci_fbuf_vdev) (t t1 : list event) :
  pci_fbuf_render fb t = Ret tt fb1 t1 →
  ∃ l, pci_fbuf_render fb1 t1 = Ret tt fb1 (t1 ++ l)
       ∧ (l = [] ∨ l = [CallVgaRender (vga_dev fb1)]).
Proof.
  unfold pci_fbuf_render, deref_gc_image.
  cbv beta iota delta [bind ret emit modify get put crash assert_].
  destruct (vga_full fb =? 0) eqn:Ef; cbv beta iota.
  - destruct (negb (gc_width fb =? memregs_width fb)
              || negb (gc_height fb =? memregs_height fb)) eqn:Ec;
      intros [= <- <-].
    + cbn [vga_full set_gc_height set_gc_width]. rewrite Ef. cbv beta iota.
      change (memregs_width (set_gc_height _ _)) with (memregs_width fb).
      change (memregs_height (set_gc_height _ _)) with (memregs_height fb).
      cbn [gc_width gc_height set_gc_height set_gc_width].
      rewrite !Z.eqb_refl. cbn [negb orb].
      exists []. by rewrite app_nil_r; split; [|left].
    + rewrite Ef. cbv beta iota. rewrite Ec.
      exists []. by rewrite app_nil_r; split; [|left].
  - destruct (gc_image fb) as [img|] eqn:Himg; cbv beta iota; [|done].
    destruct (negb (vgamode img =? 0)) eqn:Ev; cbv beta iota.
    + intros [= <- <-]. rewrite Ef, Himg. cbv beta iota. rewrite Ev.
      exists [CallVgaRender (vga_dev fb)]. by split; [|right].
    + destruct (negb (gc_width fb =? memregs_width fb)
                || negb (gc_height fb =? memregs_height fb)) eqn:Ec;
        intros [= <- <-].
      * cbn [vga_full set_gc_height set_gc_width].
        rewrite Ef. cbv beta iota.
        cbn [gc_image set_gc_height set_gc_width].
        rewrite Himg. cbv beta iota. rewrite Ev.
        change (memregs_width (set_gc_height _ _)) with (memregs_width fb).
        change (memregs_height (set_gc_height _ _))
          with (memregs_height fb).
        cbn [gc_width gc_height set_gc_height set_gc_width].
        rewrite !Z.eqb_refl. cbn [negb orb].
        exists []. by rewrite app_nil_r; split; [|left].
      * rewrite Ef, Himg. cbv beta iota. rewrite Ev, Ec.
        exists []. by rewrite app_nil_r; split; [|left].
Qed.

Lemma render_is_idempotent_witness :
  ∃ l, pci_fbuf_render (sample_fb 0 640 480 640 480)
         [CallGcResize 640 480]
       = Ret tt (sample_fb 0 640 480 640 480) ([CallGcResize 640 480] ++ l)
       ∧ (l = [] ∨ l = [CallVgaRender (vga_dev (sample_fb 0 640 480 640 480))]).
Proof.
  apply (render_is_idempotent (sample_fb 0 640 480 0 0)
           (sample_fb 0 640 480 640 480) [] [CallGcResize 640 480]).
  reflexivity.
Defined.

(** X10: a new width reaches the console.  In VESA mode, when the guest
    stores into the width register a value that differs from the tracked
    width (and does not make width and height both zero), the next render
    callback requests a resize to the new width and the current height,
    and tracks them. *)
Theorem width_write_is_propagated_by_render (value : Z)
    (fb : pci_fbuf_vdev) (t : list event) (img : gfx_ctx_image) :
  length (memregs fb) = Z.to_nat DMEMSZ →
  gc_image fb = Some img → vgamode img = 0 →
  gc_width fb ≠ value mod 2 ^ 16 →
  value mod 2 ^ 16 ≠ 0 ∨ memregs_height fb ≠ 0 →
  ∃ fb1 t1 fb2,
    pci_fbuf_write 0 4 2 value fb t = Ret tt fb1 t1
    ∧ pci_fbuf_render fb1 t1
      = Ret tt fb2
            (t1 ++ [CallGcResize (value mod 2 ^ 16) (memregs_height fb)])
    ∧ gc_width fb2 = value mod 2 ^ 16
    ∧ gc_height fb2 = memregs_height fb.
Proof.
  intros Hlen Himg Hv Hgc Hnz.
  destruct (pci_fbuf_write_inside 4 2 value fb t img) as [t1 ->];
    [lia|lia|unfold DMEMSZ; lia|done|].
  cbv zeta. change (supported_size 2) with true. cbv iota.
  change (set_memregs (store_le (memregs fb) (Z.to_nat 4) (Z.to_nat 2) value)
            fb) with (set_memregs_width value fb).
  rewrite memregs_width_set_width by (rewrite Hlen; unfold DMEMSZ; lia).
  assert (Hh : memregs_height (set_memregs_width value fb)
               = memregs_height fb).
  { unfold memregs_height, set_memregs_width. cbn [memregs set_memregs].
    by rewrite load_store_le_disjoint by lia. }
  rewrite Hh, Hv. change (0 =? 0) with true. cbn [negb andb].
  assert (Ec : (wrap16 value =? 0) && (memregs_height fb =? 0) = false).
  { apply andb_false_iff. unfold wrap16.
    destruct Hnz as [H|H]; apply Z.eqb_neq in H; tauto. }
  rewrite Ec.
  eexists _, _, _. split; [done|].
  rewrite (pci_fbuf_render_spec _ _ img) by done.
  rewrite Hv. change (0 =? 0) with true. rewrite andb_false_r.
  rewrite memregs_width_set_width by (rewrite Hlen; unfold DMEMSZ; lia).
  rewrite Hh. change (gc_width (set_memregs_width value fb))
    with (gc_width fb).
  apply Z.eqb_neq in Hgc. unfold wrap16. rewrite Hgc. cbn [andb].
  done.
Qed.

Lemma width_write_is_propagated_by_render_witness :
  ∃ fb1 t1 fb2,
    pci_fbuf_write 0 4 2 800 (sample_fb 0 640 480 640 480) []
      = Ret tt fb1 t1
    ∧ pci_fbuf_render fb1 t1
      = Ret tt fb2
            (t1 ++ [CallGcResize (800 mod 2 ^ 16)
                      (memregs_height (sample_fb 0 640 480 640 480))])
    ∧ gc_width fb2 = 800 mod 2 ^ 16
    ∧ gc_height fb2 = memregs_height (sample_fb 0 640 480 640 480).
Proof.
  apply (width_write_is_propagated_by_render 800
           (sample_fb 0 640 480 640 480) [] {| vgamode := 0 |});
    [reflexivity | reflexivity | reflexivity | by vm_compute
    | left; by vm_compute].
Defined.

(** ** The option parser, continued *)

Lemma memregs_height_set_width (v : Z) (fb : pci_fbuf_vdev) :
  memregs_height (set_memregs_width v fb) = memregs_height fb.
Proof.
  unfold memregs_height, set_memregs_width. cbn [memregs set_memregs].
  by rewrite load_store_le_disjoint by lia.
Qed.

Lemma option_frame_refl (fb : pci_fbuf_vdev) : option_frame fb fb.
Proof. by repeat split. Qed.

Lemma option_frame_trans (a b c : pci_fbuf_vdev) :
  option_frame a b → option_frame b c → option_frame a c.
Proof.
  unfold option_frame. intros (?&Hab&?&?&?&?&?&?&?) (?&Hbc&?&?&?&?&?&?&?).
  repeat split; try congruence. intros j Hj. by rewrite Hbc, Hab.
Qed.

Lemma option_frame_set_width (v : Z) (fb : pci_fbuf_vdev) :
  option_frame fb (set_memregs_width v fb).
Proof.
  repeat split; try reflexivity.
  - apply length_store_le.
  - intros j Hj. unfold set_memregs_width. cbn [memregs set_memregs].
    apply lookup_store_le_outside. lia.
Qed.

Lemma option_frame_set_height (v : Z) (fb : pci_fbuf_vdev) :
  option_frame fb (set_memregs_height v fb).
Proof.
  repeat split; try reflexivity.
  - apply length_store_le.
  - intros j Hj. unfold set_memregs_height. cbn [memregs set_memregs].
    apply lookup_store_le_outside. lia.
Qed.

(** The geometry only depends on the register block. *)
Lemma geometry_ok_same_regs (a b : pci_fbuf_vdev) :
  memregs b = memregs a → geometry_ok a → geometry_ok b.
Proof.
  unfold geometry_ok, memregs_width, memregs_height. by intros ->.
Qed.

Ltac leaf :=
  eexists _, _, _; split; [reflexivity|].

(** One token: the parser returns, changes only what options may change,
    and keeps a valid geometry valid whenever it accepts the token. *)
Lemma parse_one_spec (tok : string) (fb : pci_fbuf_vdev) (t : list event) :
  ∃ r fb' t',
    parse_one tok fb t = Ret r fb' t'
    ∧ option_frame fb fb'
    ∧ (geometry_ok fb → r = 0 → geometry_ok fb').
Proof.
  assert (Hframe : ∀ fb', memregs fb' = memregs fb →
            dev fb' = dev fb → fbaddr fb' = fbaddr fb →
            fb_base fb' = fb_base fb → gc_width fb' = gc_width fb →
            gc_height fb' = gc_height fb → vga_dev fb' = vga_dev fb →
            gc_image fb' = gc_image fb → option_frame fb fb').
  { intros fb' Hm ? ? ? ? ? ? ?. unfold option_frame. rewrite Hm.
    by repeat split. }
  assert (Hsame : ∀ fb' r, memregs fb' = memregs fb →
            dev fb' = dev fb → fbaddr fb' = fbaddr fb →
            fb_base fb' = fb_base fb → gc_width fb' = gc_width fb →
            gc_height fb' = gc_height fb → vga_dev fb' = vga_dev fb →
            gc_image fb' = gc_image fb →
            option_frame fb fb' ∧ (geometry_ok fb → r = 0 → geometry_ok fb')).
  { intros fb' r Hm ? ? ? ? ? ? ?. split; [by apply Hframe|].
    intros Hg _. by apply (geometry_ok_same_regs fb). }
  assert (Hfail : ∀ fb' r, r ≠ 0 → option_frame fb fb' →
            option_frame fb fb' ∧ (geometry_ok fb → r = 0 → geometry_ok fb'))
    by (intros fb' r Hr Hf; split; [done|by intros _ ?]).
  unfold parse_one, pci_fbuf_usage.
  cbv beta iota delta [bind ret emit modify get put crash].
  destruct (String.eqb tok "wait"); [leaf; by apply Hsame|].
  destruct (strsep "="%char tok) as [[name config]|];
    [|leaf; by apply Hsame].
  destruct (String.eqb name "tcp" || String.eqb name "rfb").
  { destruct (strsep "]"%char config) as [[tmpstr rest]|].
    - destruct rest as [|[[] [] [] [] [] [] [] []] rest'];
        try (leaf; by apply Hsame).
      destruct (dm_strtoi rest') as [[v e]|]; leaf;
        by apply Hsame.
    - destruct (strsep ":"%char config) as [[tmpstr rest]|];
        destruct (dm_strtoi _) as [[v e]|]; leaf;
        by apply Hsame. }
  destruct (String.eqb name "vga").
  { destruct (String.eqb config "off"); [leaf; by apply Hsame|].
    destruct (String.eqb config "io"); [leaf; by apply Hsame|].
    destruct (String.eqb config "on"); [leaf; by apply Hsame|].
    leaf. by apply Hsame. }
  destruct (String.eqb name "w").
  { destruct (dm_strtoui config) as [[val e]|];
      [|leaf; by apply Hsame].
    destruct (val =? wrap16 val) eqn:Eval;
      [|leaf; by apply Hsame].
    apply Z.eqb_eq in Eval.
    destruct (memregs_width (set_memregs_width val fb) >? COLS_MAX) eqn:Emax;
      [leaf; by apply Hfail, option_frame_set_width|].
    destruct (memregs_width (set_memregs_width val fb) =? 0) eqn:Ez; leaf.
    - split.
      + eapply option_frame_trans; apply option_frame_set_width.
      + intros (Hlen & Hw & Hh) _. unfold geometry_ok.
        rewrite !length_memregs_set_width, !memregs_height_set_width.
        rewrite memregs_width_set_width
          by (rewrite length_memregs_set_width, Hlen; unfold DMEMSZ; lia).
        split; [done|]. split; [by vm_compute|done].
    - split; [apply option_frame_set_width|].
      intros (Hlen & Hw & Hh) _. unfold geometry_ok.
      rewrite length_memregs_set_width, memregs_height_set_width.
      rewrite memregs_width_set_width in *
        by (rewrite Hlen; unfold DMEMSZ; lia).
      pose proof (Z.mod_pos_bound val (2 ^ 16) ltac:(lia)).
      unfold wrap16 in *. split; [done|]. split; [lia|done]. }
  destruct (String.eqb name "h").
  { destruct (dm_strtoui config) as [[val e]|];
      [|leaf; by apply Hsame].
    destruct (val =? wrap16 val) eqn:Eval;
      [|leaf; by apply Hsame].
    apply Z.eqb_eq in Eval.
    destruct (memregs_height (set_memregs_height val fb) >? ROWS_MAX)
      eqn:Emax; [leaf; by apply Hfail, option_frame_set_height|].
    destruct (memregs_height (set_memregs_height val fb) =? 0) eqn:Ez; leaf.
    - split.
      + eapply option_frame_trans; apply option_frame_set_height.
      + intros (Hlen & Hw & Hh) _. unfold geometry_ok.
        rewrite !length_memregs_set_height, !memregs_width_set_height.
        rewrite memregs_height_set_height
          by (rewrite length_memregs_set_height, Hlen; unfold DMEMSZ; lia).
        split; [done|]. split; [done|by vm_compute].
    - split; [apply option_frame_set_height|].
      intros (Hlen & Hw & Hh) _. unfold geometry_ok.
      rewrite length_memregs_set_height, memregs_width_set_height.
      rewrite memregs_height_set_height in *
        by (rewrite Hlen; unfold DMEMSZ; lia).
      pose proof (Z.mod_pos_bound val (2 ^ 16) ltac:(lia)).
      unfold wrap16 in *. split; [done|]. split; [done|lia]. }
  destruct (String.eqb name "password"); [leaf; by apply Hsame|].
  leaf. by apply Hsame.
Qed.

Lemma parse_loop_spec (toks : list string) (fb : pci_fbuf_vdev)
    (t : list event) :
  ∃ r fb' t',
    parse_loop toks fb t = Ret r fb' t'
    ∧ option_frame fb fb'
    ∧ (geometry_ok fb → r = 0 → geometry_ok fb').
Proof.
  revert fb t. induction toks as [|tok toks IH]; intros fb t.
  - exists 0, fb, t. split; [done|]. split; [apply option_frame_refl|done].
  - cbn [parse_loop]. unfold bind.
    destruct (parse_one_spec tok fb t) as (r & fb1 & t1 & -> & Hf1 & Hg1).
    destruct (Z.eqb_spec r 0) as [->|Hr].
    + destruct (IH fb1 t1) as (r2 & fb2 & t2 & -> & Hf2 & Hg2).
      exists r2, fb2, t2. split; [done|].
      split; [by eapply option_frame_trans|]. auto.
    + exists r, fb1, t1. split; [done|]. split; [done|]. by intros _ ?.
Qed.

(** [pci_fbuf_parse_opts] as a whole. *)
Lemma pci_fbuf_parse_opts_spec (opts : string) (fb : pci_fbuf_vdev)
    (t : list event) :
  ∃ r fb' t',
    pci_fbuf_parse_opts opts fb t = Ret r fb' t'
    ∧ option_frame fb fb'
    ∧ (geometry_ok fb → r = 0 → geometry_ok fb').
Proof.
  unfold pci_fbuf_parse_opts.
  cbv beta iota delta [bind ret emit modify get put crash].
  destruct (parse_loop_spec (strtok_all ","%char opts "") fb t)
    as (r & fb1 & t1 & -> & Hf & Hg).
  by eexists _, _, _.
Qed.

(** X11: [pci_fbuf_parse_opts] always returns, and whatever the option
    string it changes nothing of the device but the remote-display and VGA
    settings and the width and height registers (bytes 4 to 7 of the
    register block). *)
Theorem parse_opts_changes_only_options (opts : string)
    (fb : pci_fbuf_vdev) (t : list event) :
  ∃ r fb' t',
    pci_fbuf_parse_opts opts fb t = Ret r fb' t' ∧ option_frame fb fb'.
Proof.
  destruct (pci_fbuf_parse_opts_spec opts fb t) as (r & fb' & t' & H & Hf & _).
  by exists r, fb', t'.
Qed.

(** X12: the parser keeps the geometry within its limits.  Starting from a
    device with a 128-byte register block, a width in 1..1920 and a height
    in 1..1200, every option string that is accepted (status 0) leaves a
    width in 1..1920 and a height in 1..1200. *)
Theorem parse_opts_keeps_geometry (opts : string) (fb : pci_fbuf_vdev)
    (t : list event) :
  geometry_ok fb →
  ∃ r fb' t',
    pci_fbuf_parse_opts opts fb t = Ret r fb' t'
    ∧ (r = 0 → geometry_ok fb').
Proof.
  intros Hg.
  destruct (pci_fbuf_parse_opts_spec opts fb t) as (r & fb' & t' & H & _ & Hg').
  exists r, fb', t'. auto.
Qed.

Lemma parse_opts_keeps_geometry_witness :
  ∃ r fb' t',
    pci_fbuf_parse_opts "w=0,h=600,vga=off" (sample_fb 1 1024 768 0 0) []
      = Ret r fb' t'
    ∧ (r = 0 → geometry_ok fb').
Proof.
  apply (parse_opts_keeps_geometry "w=0,h=600,vga=off"
           (sample_fb 1 1024 768 0 0) []).
  by vm_compute.
Defined.

Lemma parse_one_unrecognised (tok : string) (fb : pci_fbuf_vdev)
    (t : list event) :
  unrecognised tok →
  ∃ opt t', parse_one tok fb t = Ret (-1) fb t' ∧ FbufUsage opt ∈ t'.
Proof.
  intros [Hw Hn]. unfold parse_one, pci_fbuf_usage.
  cbv beta iota delta [bind ret emit modify get put crash].
  apply String.eqb_neq in Hw. rewrite Hw.
  destruct (strsep "="%char tok) as [[name config]|].
  - assert (Hne : ∀ s, s ∈ option_names → String.eqb name s = false).
    { intros s Hs. apply String.eqb_neq. intros ->. done. }
    rewrite !Hne by (unfold option_names; set_solver). cbn [orb].
    exists name. eexists. split; [done|]. set_solver.
  - exists tok. eexists. split; [done|]. set_solver.
Qed.

Lemma parse_loop_unrecognised (toks : list string) (tok : string)
    (fb : pci_fbuf_vdev) (t : list event) :
  tok ∈ toks → unrecognised tok →
  ∃ r fb' t', parse_loop toks fb t = Ret r fb' t' ∧ r ≠ 0.
Proof.
  intros Hin Hu. revert fb t.
  induction toks as [|x toks IH]; intros fb t; [set_solver|].
  cbn [parse_loop]. unfold bind.
  destruct (parse_one_spec x fb t) as (r & fb1 & t1 & Hx & _).
  rewrite Hx.
  destruct (Z.eqb_spec r 0) as [->|Hr]; [|by eexists _, _, _].
  apply elem_of_cons in Hin as [->|Hin]; [|by apply IH].
  destruct (parse_one_unrecognised x fb t Hu) as (opt & t' & Hx' & _).
  congruence.
Qed.

(** X13: one unrecognised token is enough for the option string to be
    refused: if any of its comma-separated tokens is neither "wait" nor
    name=value with a known name, [pci_fbuf_parse_opts] returns a non-zero
    status. *)
Theorem parse_opts_refuses_unrecognised (opts tok : string)
    (fb : pci_fbuf_vdev) (t : list event) :
  tok ∈ strtok_all ","%char opts "" → unrecognised tok →
  ∃ r fb' t', pci_fbuf_parse_opts opts fb t = Ret r fb' t' ∧ r ≠ 0.
Proof.
  intros Hin Hu. unfold pci_fbuf_parse_opts.
  cbv beta iota delta [bind ret emit modify get put crash].
  destruct (parse_loop_unrecognised _ tok fb t Hin Hu)
    as (r & fb1 & t1 & -> & Hr).
  by eexists _, _, _.
Qed.

Lemma parse_opts_refuses_unrecognised_witness :
  ∃ r fb' t',
    pci_fbuf_parse_opts "w=800,depth=16,h=600" fb_zero [] = Ret r fb' t'
    ∧ r ≠ 0.
Proof.
  apply (parse_opts_refuses_unrecognised "w=800,depth=16,h=600" "depth=16"
           fb_zero []).
  - vm_compute. set_solver.
  - split; [done|]. by refine (bool_decide_unpack _ _).
Defined.





Lemma strtok_all_commas (n : nat) :
  strtok_all ","%char (string_of_list_ascii (replicate n ","%char)) "" = [].
Proof. induction n as [|n IH]; [done|]. cbn. exact IH. Qed.

(** X15: an option string that is empty or made of commas only has no token:
    the parser returns 0 and leaves the device as it is. *)
Theorem parse_opts_without_tokens (n : nat) (fb : pci_fbuf_vdev)
    (t : list event) :
  pci_fbuf_parse_opts (string_of_list_ascii (replicate n ","%char)) fb t
  = Ret 0 fb (t ++ [FbufParseDone (memregs_height fb) (memregs_width fb)
                                  (rfb_port fb)]).
Proof. unfold pci_fbuf_parse_opts. by rewrite strtok_all_commas. Qed.

(** ** Device initialisation, continued *)

Lemma with_fb_run {A} (p : nat) (m : M pci_fbuf_vdev A) (w : world)
    (t t' : list event) (fb fb' : pci_fbuf_vdev) (a : A) :
  heap w !! p = Some fb → m fb t = Ret a fb' t' →
  with_fb p m w t = Ret a (set_heap (<[ p := fb' ]> (heap w)) w) t'.
Proof. intros Hl Hm. unfold with_fb. by rewrite Hl, Hm. Qed.

(** The device structure as [pci_fbuf_init] hands it to the parser. *)
Lemma fbuf_defaults_run (c : collaborators) (dev : nat) (t : list event) :
  ∃ fbD,
    fbuf_defaults c dev fb_zero t = Ret tt fbD t
    ∧ geometry_ok fbD ∧ vga_enabled fbD = 1 ∧ vga_full fbD = 0
    ∧ gc_image fbD = None ∧ fbaddr fbD = wrap32 (bar1_addr c).
Proof.
  eexists. split; [reflexivity|].
  split; [|by repeat split].
  unfold geometry_ok, memregs_width, memregs_height.
  cbn [memregs set_dev set_vga_full set_vga_enabled set_memregs_depth
       set_memregs_height set_memregs_width set_memregs_fbsize set_fbaddr
       set_memregs fb_zero].
  by vm_compute.
Qed.

Ltac in_trace :=
  repeat first
    [ apply list_elem_of_singleton; reflexivity
    | apply elem_of_app;
      first [right; apply list_elem_of_singleton; reflexivity | left] ].

Ltac wsimpl :=
  cbn [heap set_heap set_next_ptr set_dev_arg set_fbuf_dev
       set_console_fb_arg dev_arg fbuf_dev console_fb_arg next_ptr].

(** [pci_fbuf_init] when no framebuffer device exists yet, the next
    allocation is fresh and the BAR and MSI set-up succeed: it returns, and
    ends in one of the five ways of [init_ending]. *)
Lemma pci_fbuf_init_endings (c : collaborators) (dev : nat) (opts : string)
    (w : world) (t : list event) :
  fbuf_dev w = None → heap w !! next_ptr w = None →
  alloc_bar0_status c = 0 → alloc_bar1_status c = 0 →
  add_msicap_status c = 0 →
  ∃ e w' t',
    pci_fbuf_init c dev opts w t = Ret e w' t'
    ∧ dev_arg w' = Some (next_ptr w)
    ∧ (∀ q, q ≠ next_ptr w → heap w' !! q = heap w !! q)
    ∧ init_ending c (next_ptr w) w w' e t'.
Proof.
  intros Hnone Hfresh H0 H1 H2.
  unfold pci_fbuf_init. rewrite H0, H1, H2. change (0 =? 0) with true.
  unfold bind at 1. unfold get at 1. rewrite Hnone.
  cbv beta iota zeta
    delta [bind ret emit modify get put assert_ calloc_fb free_fb].
  set (p := next_ptr w).
  match goal with |- context [with_fb p (fbuf_defaults c dev) ?W ?T] =>
    destruct (fbuf_defaults_run c dev T)
      as (fbD & HD & HgD & HeD & HfD & HiD & HaD);
    rewrite (with_fb_run p _ W T T fb_zero fbD tt);
      [|cbn [heap set_heap set_next_ptr set_dev_arg];
        apply lookup_insert_eq|exact HD]
  end.
  cbv beta iota.
  match goal with |- context [with_fb p (pci_fbuf_parse_opts opts) ?W ?T] =>
    destruct (pci_fbuf_parse_opts_spec opts fbD T)
      as (r & fbP & tP & HP & HfP & HgP);
    rewrite (with_fb_run p _ W T tP fbD fbP r);
      [|cbn [heap set_heap set_next_ptr set_dev_arg];
        apply lookup_insert_eq|exact HP]
  end.
  cbv beta iota.
  destruct (Z.eqb_spec r 0) as [->|Hr]; cbn [negb]; cbv beta iota.
  2:{ apply Z.eqb_neq in Hr as Hr'. rewrite Hr'. cbn [negb]. cbv beta iota.
      eexists _, _, _. split; [reflexivity|].
      cbn [heap set_heap set_next_ptr set_dev_arg dev_arg fbuf_dev
           console_fb_arg].
      split; [done|]. split.
      - intros q Hq. rewrite lookup_delete_ne, !lookup_insert_ne by done. done.
      - apply InitBadOptions; cbn [heap set_heap set_next_ptr set_dev_arg dev_arg fbuf_dev
           console_fb_arg]; try done. apply lookup_delete_eq. }
  assert (HgP0 : geometry_ok fbP) by auto.
  erewrite (with_fb_run p _ _ _ _ fbP); [|wsimpl; apply lookup_insert_eq|reflexivity].
  cbv beta iota.
  destruct (Z.eqb_spec (vga_full fbP) 0) as [Hfull|Hfull]; cbn [negb]; cbv beta iota.
  2:{ change (negb (0 =? 0)) with false. cbv beta iota.
      eexists _, _, _. split; [reflexivity|]. wsimpl.
      split; [done|]. split.
      - intros q Hq. by rewrite !lookup_insert_ne by done.
      - destruct HfP as (_ & _ & _ & _ & _ & _ & _ & _ & Hi).
        apply (InitFullVga _ _ _ _ _ _ fbP); wsimpl; try done.
        + apply lookup_insert_eq.
        + congruence.
        + in_trace. }
  erewrite (with_fb_run p _ _ _ _ fbP); [|wsimpl; apply lookup_insert_eq|reflexivity].
  cbv beta iota.
  destruct (Z.eqb_spec (map_memseg_status c) 0) as [Hmap|Hmap]; cbn [negb]; cbv beta iota.
  2:{ change (negb (-1 =? 0)) with true. cbv beta iota.
      eexists _, _, _. split; [reflexivity|]. wsimpl.
      split; [done|]. split.
      - intros q Hq. by rewrite lookup_delete_ne, !lookup_insert_ne by done.
      - apply InitMapFailed; wsimpl; try done. apply lookup_delete_eq. }
  wsimpl. cbn [vga_enabled vga_full set_fb_base].
  set (fbB := set_fb_base (ctx_fb_base c) fbP).
  set (tail := λ fbV : pci_fbuf_vdev,
         set_gc_image (console_image c) fbV).
  assert (Hfin : ∀ fbV, memregs fbV = memregs fbP → vga_full fbV = 0 →
            fb_base fbV = ctx_fb_base c → fbaddr fbV = fbaddr fbP →
            geometry_ok (tail fbV) ∧ vga_full (tail fbV) = 0
            ∧ gc_image (tail fbV) = console_image c
            ∧ fb_base (tail fbV) = ctx_fb_base c
            ∧ fbaddr (tail fbV) = wrap32 (bar1_addr c)
            ∧ memregs_width (tail fbV) = memregs_width fbB
            ∧ memregs_height (tail fbV) = memregs_height fbB
            ∧ fb_base (tail fbV) = fb_base fbB).
  { intros fbV Hm Hv Hb Ha.
    destruct HfP as (_ & _ & _ & HaP & _).
    split; [by apply (geometry_ok_same_regs fbP)|].
    unfold tail, fbB, memregs_width, memregs_height. cbn.
    rewrite Hm. repeat split; try done. congruence. }
  destruct (vga_enabled fbP =? 0); cbn [negb]; cbv beta iota.
  - erewrite (with_fb_run p _ _ _ _ fbB);
      [|wsimpl; apply lookup_insert_eq|reflexivity].
    cbv beta iota. wsimpl.
    destruct (Hfin fbB) as (Hg & Hv & Hi & Hb & Ha & Hw & Hh & Hbb);
      [done..|].
    fold (tail fbB).
    destruct (Z.eqb_spec (rfb_init_status c) 0) as [Hrfb|Hrfb];
      cbn [negb]; cbv beta iota.
    + eexists _, _, _. split; [reflexivity|]. wsimpl.
      split; [done|]. split.
      * intros q Hq. by rewrite !lookup_insert_ne by done.
      * apply (InitRegistered _ _ _ _ _ _ (tail fbB)); wsimpl; try done.
        -- apply lookup_insert_eq.
        -- rewrite Hw, Hh, Hbb. in_trace.
    + eexists _, _, _. split; [reflexivity|]. wsimpl.
      split; [done|]. split.
      * intros q Hq. by rewrite lookup_delete_ne, !lookup_insert_ne by done.
      * apply InitRfbFailed; wsimpl; try done. apply lookup_delete_eq.
  - erewrite (with_fb_run p _ _ _ _ fbB);
      [|wsimpl; apply lookup_insert_eq|reflexivity].
    cbv beta iota. wsimpl.
    erewrite (with_fb_run p _ _ _ _ (set_vga_dev (vga_init_result c) fbB));
      [|wsimpl; apply lookup_insert_eq|reflexivity].
    cbv beta iota. wsimpl.
    destruct (Hfin (set_vga_dev (vga_init_result c) fbB))
      as (Hg & Hv & Hi & Hb & Ha & Hw & Hh & Hbb); [done..|].
    fold (tail (set_vga_dev (vga_init_result c) fbB)).
    destruct (Z.eqb_spec (rfb_init_status c) 0) as [Hrfb|Hrfb];
      cbn [negb]; cbv beta iota.
    + eexists _, _, _. split; [reflexivity|]. wsimpl.
      split; [done|]. split.
      * intros q Hq. by rewrite !lookup_insert_ne by done.
      * apply (InitRegistered _ _ _ _ _ _
                 (tail (set_vga_dev (vga_init_result c) fbB)));
          wsimpl; try done.
        -- apply lookup_insert_eq.
        -- rewrite Hw, Hh, Hbb. in_trace.
    + eexists _, _, _. split; [reflexivity|]. wsimpl.
      split; [done|]. split.
      * intros q Hq. by rewrite lookup_delete_ne, !lookup_insert_ne by done.
      * apply InitRfbFailed; wsimpl; try done. apply lookup_delete_eq.
Qed.

(** X16: [pci_fbuf_init] frees what it allocates exactly when it fails.
    Started with no framebuffer device and working BAR and MSI set-up, it
    returns; the structure it allocated is live when the status is 0 and
    freed when it is not; no other allocation is touched; and [dev->arg]
    points to that structure either way (so it dangles after a failure). *)
Theorem init_frees_exactly_on_error (c : collaborators) (dev : nat)
    (opts : string) (w : world) (t : list event) :
  fbuf_dev w = None → heap w !! next_ptr w = None →
  alloc_bar0_status c = 0 → alloc_bar1_status c = 0 →
  add_msicap_status c = 0 →
  ∃ e w' t',
    pci_fbuf_init c dev opts w t = Ret e w' t'
    ∧ (e ≠ 0 ↔ heap w' !! next_ptr w = None)
    ∧ (∀ q, q ≠ next_ptr w → heap w' !! q = heap w !! q)
    ∧ dev_arg w' = Some (next_ptr w).
Proof.
  intros Hnone Hfresh H0 H1 H2.
  destruct (pci_fbuf_init_endings c dev opts w t Hnone Hfresh H0 H1 H2)
    as (e & w' & t' & Hrun & Harg & Hoth & Hend).
  exists e, w', t'. split; [done|]. split; [|done].
  destruct Hend as [He Hh|fb He Hh|He _ Hh|He Hne _ Hh|fb He _ _ Hh].
  - done.
  - rewrite Hh. split; [done|]. done.
  - split; [done|]. intros _. lia.
  - done.
  - rewrite Hh. split; [done|]. done.
Qed.

Lemma init_frees_exactly_on_error_witness :
  ∃ e w' t',
    pci_fbuf_init (collaborators_ok (-1)) 7 "w=800,h=600" world0 []
      = Ret e w' t'
    ∧ (e ≠ 0 ↔ heap w' !! next_ptr world0 = None)
    ∧ (∀ q, q ≠ next_ptr world0 → heap w' !! q = heap world0 !! q)
    ∧ dev_arg w' = Some (next_ptr world0).
Proof.
  apply (init_frees_exactly_on_error (collaborators_ok (-1)) 7
           "w=800,h=600" world0 []); reflexivity.
Defined.

(** X17: [pci_fbuf_init] registers the device only once the frame buffer is
    mapped.  If it leaves [fbuf_dev] set, then [vm_map_memseg_vma] had
    succeeded, [fbuf_dev] and the render callback both refer to the new
    structure, and the status is the one of [rfb_init]; otherwise
    [fbuf_dev] is still unset and the render callback is the one
    registered before. *)
Theorem init_registers_after_mapping (c : collaborators) (dev : nat)
    (opts : string) (w : world) (t : list event) :
  fbuf_dev w = None → heap w !! next_ptr w = None →
  alloc_bar0_status c = 0 → alloc_bar1_status c = 0 →
  add_msicap_status c = 0 →
  ∃ e w' t',
    pci_fbuf_init c dev opts w t = Ret e w' t'
    ∧ (fbuf_dev w' = Some (next_ptr w)
       ∧ console_fb_arg w' = Some (next_ptr w)
       ∧ map_memseg_status c = 0 ∧ e = rfb_init_status c
       ∨ fbuf_dev w' = None ∧ console_fb_arg w' = console_fb_arg w).
Proof.
  intros Hnone Hfresh H0 H1 H2.
  destruct (pci_fbuf_init_endings c dev opts w t Hnone Hfresh H0 H1 H2)
    as (e & w' & t' & Hrun & Harg & Hoth & Hend).
  exists e, w', t'. split; [done|].
  destruct Hend; [by right|by right|by right|by left|left].
  repeat split; try done. congruence.
Qed.

Lemma init_registers_after_mapping_witness :
  ∃ e w' t',
    pci_fbuf_init (collaborators_ok 0) 7 "rfb=127.0.0.1:5900" world0 []
      = Ret e w' t'
    ∧ (fbuf_dev w' = Some (next_ptr world0)
       ∧ console_fb_arg w' = Some (next_ptr world0)
       ∧ map_memseg_status (collaborators_ok 0) = 0
       ∧ e = rfb_init_status (collaborators_ok 0)
       ∨ fbuf_dev w' = None ∧ console_fb_arg w' = console_fb_arg world0).
Proof.
  apply (init_registers_after_mapping (collaborators_ok 0) 7
           "rfb=127.0.0.1:5900" world0 []); reflexivity.
Defined.

(** X18: what status 0 of [pci_fbuf_init] stands for.  Either the device is
    registered, and then its structure is live with a width in 1..1920 and
    a height in 1..1200, I/O-only VGA, the console image attached, the
    frame buffer of the VM as its base, and the console was initialised
    with that geometry and base; or full VGA was asked for, and then
    nothing is registered and the structure is live with no image
    attached. *)
Theorem init_status_zero (c : collaborators) (dev : nat)
    (opts : string) (w : world) (t : list event) :
  fbuf_dev w = None → heap w !! next_ptr w = None →
  alloc_bar0_status c = 0 → alloc_bar1_status c = 0 →
  add_msicap_status c = 0 →
  ∃ e w' t',
    pci_fbuf_init c dev opts w t = Ret e w' t'
    ∧ (e = 0 →
       ∃ fb, heap w' !! next_ptr w = Some fb
         ∧ (fbuf_dev w' = Some (next_ptr w)
            ∧ geometry_ok fb ∧ vga_full fb = 0
            ∧ gc_image fb = console_image c
            ∧ fb_base fb = ctx_fb_base c
            ∧ CallConsoleInit (memregs_width fb) (memregs_height fb)
                              (ctx_fb_base c) ∈ t'
            ∨ fbuf_dev w' = None ∧ vga_full fb ≠ 0 ∧ gc_image fb = None)).
Proof.
  intros Hnone Hfresh H0 H1 H2.
  destruct (pci_fbuf_init_endings c dev opts w t Hnone Hfresh H0 H1 H2)
    as (e & w' & t' & Hrun & Harg & Hoth & Hend).
  exists e, w', t'. split; [done|]. intros He.
  destruct Hend as [Hne|fb _ Hh Hv Hi Hd|He'|_ Hne|
                    fb _ _ _ Hh Hd _ Hg Hv Hi Hb _ Hc]; try done.
  - exists fb. split; [done|]. by right.
  - lia.
  - exists fb. split; [done|]. left. rewrite <- Hb.
    repeat (split; [assumption || reflexivity|]). assumption.
Qed.

Lemma init_status_zero_witness :
  ∃ e w' t',
    pci_fbuf_init (collaborators_ok 0) 7 "w=0,h=0" world0 [] = Ret e w' t'
    ∧ (e = 0 →
       ∃ fb, heap w' !! next_ptr world0 = Some fb
         ∧ (fbuf_dev w' = Some (next_ptr world0)
            ∧ geometry_ok fb ∧ vga_full fb = 0
            ∧ gc_image fb = console_image (collaborators_ok 0)
            ∧ fb_base fb = ctx_fb_base (collaborators_ok 0)
            ∧ CallConsoleInit (memregs_width fb) (memregs_height fb)
                              (ctx_fb_base (collaborators_ok 0)) ∈ t'
            ∨ fbuf_dev w' = None ∧ vga_full fb ≠ 0 ∧ gc_image fb = None)).
Proof.
  apply (init_status_zero (collaborators_ok 0) 7 "w=0,h=0" world0 []);
    reflexivity.
Defined.

(** X19: only one framebuffer device, ever.  When a call of
    [pci_fbuf_init] leaves [fbuf_dev] set, its status is the one of
    [rfb_init] (zero or not), and every later call, whatever its options
    and collaborators, returns -1 after printing the diagnostic, allocates
    nothing and leaves the process state as it is. *)
Theorem init_blocks_later_inits (c : collaborators) (dev : nat)
    (opts : string) (w : world) (t : list event) :
  fbuf_dev w = None → heap w !! next_ptr w = None →
  alloc_bar0_status c = 0 → alloc_bar1_status c = 0 →
  add_msicap_status c = 0 →
  ∃ e w' t',
    pci_fbuf_init c dev opts w t = Ret e w' t'
    ∧ (fbuf_dev w' ≠ None →
       e = rfb_init_status c
       ∧ ∀ c2 dev2 opts2,
           pci_fbuf_init c2 dev2 opts2 w' t'
           = Ret (-1) w' (t' ++ [FbufOnlyOne])).
Proof.
  intros Hnone Hfresh H0 H1 H2.
  destruct (pci_fbuf_init_endings c dev opts w t Hnone Hfresh H0 H1 H2)
    as (e & w' & t' & Hrun & Harg & Hoth & Hend).
  exists e, w', t'. split; [done|].
  intros Hset.
  assert (Hp : fbuf_dev w' = Some (next_ptr w) ∧ e = rfb_init_status c).
  { destruct Hend; try done; split; (done || congruence). }
  destruct Hp as [Hp He]. split; [done|].
  intros c2 dev2 opts2. unfold pci_fbuf_init, bind, get. by rewrite Hp.
Qed.

Lemma init_blocks_later_inits_witness :
  ∃ e w' t',
    pci_fbuf_init (collaborators_ok (-1)) 7 "rfb=127.0.0.1:5900" world0 []
      = Ret e w' t'
    ∧ (fbuf_dev w' ≠ None →
       e = rfb_init_status (collaborators_ok (-1))
       ∧ ∀ c2 dev2 opts2,
           pci_fbuf_init c2 dev2 opts2 w' t'
           = Ret (-1) w' (t' ++ [FbufOnlyOne])).
Proof.
  apply (init_blocks_later_inits (collaborators_ok (-1)) 7
           "rfb=127.0.0.1:5900" world0 []); reflexivity.
Defined.

(** [pci_fbuf_write] on a device whose image pointer is NULL: an access
    inside the register file gets as far as the mode rule and faults
    there. *)
Lemma pci_fbuf_write_null_image offset size value fb t :
  gc_image fb = None →
  0 <= offset → 0 <= size → offset + size <= DMEMSZ →
  ∃ fb' t', pci_fbuf_write 0 offset size value fb t = Crash NullImage fb' t'.
Proof.
  intros Himg Ho Hs Hb.
  assert (E : (wrap64 (offset + size) >? DMEMSZ) = false).
  { rewrite wrap64_small by (unfold DMEMSZ in *; lia). lia. }
  assert (Hin : in_memregs offset size = true).
  { unfold in_memregs. apply andb_true_intro. split; lia. }
  unfold pci_fbuf_write, deref_gc_image. run_monad. rewrite E.
  destruct (supported_size size) eqn:Hc.
  - apply supported_size_cases in Hc.
    destruct Hc as [ -> | [ -> | [ -> | -> ] ] ];
      unfold store_at; rewrite Hin; run_monad;
      cbn [gc_image set_memregs]; rewrite Himg; by eexists _, _.
  - assert (Hn : ¬ (size = 1 ∨ size = 2 ∨ size = 4 ∨ size = 8))
      by (rewrite <- supported_size_cases, Hc; done).
    rewrite size_switch_default by tauto. rewrite Himg. by eexists _, _.
Qed.

(** X20: a device created with status 0 but not registered cannot take
    register writes.  When [pci_fbuf_init] returns 0 and leaves [fbuf_dev]
    unset (the full-VGA case), the structure behind [dev->arg] has no image
    attached, and every BAR 0 write inside the register file then
    dereferences the NULL image pointer. *)
Theorem unregistered_device_faults_on_write (c : collaborators) (dev : nat)
    (opts : string) (w : world) (t : list event) :
  fbuf_dev w = None → heap w !! next_ptr w = None →
  alloc_bar0_status c = 0 → alloc_bar1_status c = 0 →
  add_msicap_status c = 0 →
  ∃ e w' t',
    pci_fbuf_init c dev opts w t = Ret e w' t'
    ∧ (e = 0 → fbuf_dev w' = None →
       ∃ fb, dev_arg w' = Some (next_ptr w)
         ∧ heap w' !! next_ptr w = Some fb
         ∧ ∀ offset size value t2,
             0 <= offset → 0 <= size → offset + size <= DMEMSZ →
             ∃ fb' t3,
               pci_fbuf_write 0 offset size value fb t2
               = Crash NullImage fb' t3).
Proof.
  intros Hnone Hfresh H0 H1 H2.
  destruct (pci_fbuf_init_endings c dev opts w t Hnone Hfresh H0 H1 H2)
    as (e & w' & t' & Hrun & Harg & Hoth & Hend).
  exists e, w', t'. split; [done|]. intros He Hd.
  destruct Hend as [Hne|fb _ Hh Hv Hi _|He'|_ Hne|
                    fb _ _ _ _ Hd' _]; try done.
  - exists fb. split; [done|]. split; [done|].
    intros offset size value t2 Ho Hs Hb.
    by apply pci_fbuf_write_null_image.
  - lia.
  - congruence.
Qed.

Lemma unregistered_device_faults_on_write_witness :
  ∃ e w' t',
    pci_fbuf_init (collaborators_ok 0) 7 "vga=on" world0 [] = Ret e w' t'
    ∧ (e = 0 → fbuf_dev w' = None →
       ∃ fb, dev_arg w' = Some (next_ptr world0)
         ∧ heap w' !! next_ptr world0 = Some fb
         ∧ ∀ offset size value t2,
             0 <= offset → 0 <= size → offset + size <= DMEMSZ →
             ∃ fb' t3,
               pci_fbuf_write 0 offset size value fb t2
               = Crash NullImage fb' t3).
Proof.
  apply (unregistered_device_faults_on_write (collaborators_ok 0) 7
           "vga=on" world0 []); reflexivity.
Defined.

(** ** The power-management timer, continued *)

Lemma testbit_31_decompose (v : Z) :
  0 <= v < 2 ^ 32 →
  v = v mod 2 ^ 31 + (if Z.testbit v 31 then 2 ^ 31 else 0).
Proof.
  intros Hv.
  pose proof (Z.testbit_spec' v 31 ltac:(lia)) as Hb.
  pose proof (Z.div_mod v (2 ^ 31) ltac:(lia)) as Hd.
  assert (Hq : 0 <= v / 2 ^ 31 < 2).
  { split; [apply Z.div_pos; lia|apply Z.div_lt_upper_bound; lia]. }
  rewrite (Z.mod_small (v / 2 ^ 31) 2) in Hb by lia.
  destruct (Z.testbit v 31); cbn [Z.b2z] in Hb; lia.
Qed.

Lemma carry_overlay_set (x : Z) :
  0 <= x < 2 ^ 31 → Z.lor x PMTMR_CARRY_MASK = x + 2 ^ 31.
Proof.
  intros Hx. change PMTMR_CARRY_MASK with (2 ^ 31).
  assert (Hdis : Z.land x (2 ^ 31) = 0).
  { apply Z.bits_inj'. intros n Hn.
    rewrite Z.land_spec, Z.bits_0, Z.pow2_bits_eqb by lia.
    destruct (Z.eqb_spec 31 n) as [<-|Hne]; [|by rewrite andb_false_r].
    by rewrite testbit_31_small. }
  rewrite <- (Z.lxor_lor _ _ Hdis). symmetry.
  by apply Z.add_nocarry_lxor.
Qed.

Lemma carry_overlay_clear (x : Z) :
  0 <= x < 2 ^ 31 →
  Z.land x (wrap32 (Z.lnot PMTMR_CARRY_MASK)) = x.
Proof.
  intros Hx.
  change (wrap32 (Z.lnot PMTMR_CARRY_MASK)) with PMTMR_NOCARRY_MASK.
  rewrite land_nocarry_mask. by apply Z.mod_small.
Qed.

(** The value [get_pmtmr_val] returns, in arithmetic terms. *)
Lemma get_pmtmr_val_value (vp : vpmtmr) (t : list event) :
  get_pmtmr_val vp t
  = Ret ((if msb_is_set vp then 2 ^ 31 else 0)
         + (PMTMR_NOCARRY_CNTS - remaining_ticks vp mod 2 ^ 31)) vp t.
Proof.
  unfold get_pmtmr_val, acrn_timer_gettime. run_monad.
  fold (remaining_ns vp). fold (remaining_ticks vp).
  rewrite land_nocarry_mask.
  pose proof (Z.mod_pos_bound (remaining_ticks vp) (2 ^ 31) ltac:(lia)) as Hm.
  assert (H31 : 2 ^ 31 = 2147483648) by done.
  assert (H32 : 2 ^ 32 = 4294967296) by done.
  rewrite wrap32_small
    by (unfold PMTMR_NOCARRY_CNTS, PMTMR_NOCARRY_MASK; lia).
  assert (Hx : 0 <= PMTMR_NOCARRY_CNTS - remaining_ticks vp mod 2 ^ 31
               < 2 ^ 31)
    by (unfold PMTMR_NOCARRY_CNTS, PMTMR_NOCARRY_MASK; lia).
  destruct (msb_is_set vp).
  - rewrite carry_overlay_set by done. f_equal. lia.
  - by rewrite carry_overlay_clear by done.
Qed.



(** X22: the counter does not run backwards while the timer counts down.
    For two states with the same carry flag whose remaining times are
    within one half period (fewer than 2^31 ticks), less time remaining
    means a counter value at least as large. *)
Theorem pmtmr_counter_monotone (vp1 vp2 : vpmtmr) (t1 t2 : list event) :
  msb_is_set vp1 = msb_is_set vp2 →
  0 <= remaining_ns vp1 <= remaining_ns vp2 →
  remaining_ns vp2 * PMTMR_TICK_RATE < 2 ^ 31 * NANOSEC_TICK_RATE →
  ∃ r1 r2,
    get_pmtmr_val vp1 t1 = Ret r1 vp1 t1
    ∧ get_pmtmr_val vp2 t2 = Ret r2 vp2 t2
    ∧ r2 <= r1.
Proof.
  intros Hmsb Hns Hhalf.
  rewrite !get_pmtmr_val_value. eexists _, _. split; [done|]. split; [done|].
  rewrite Hmsb.
  assert (H31 : 2 ^ 31 = 2147483648) by done.
  assert (H32 : 2 ^ 32 = 4294967296) by done.
  assert (H64 : 2 ^ 64 = 18446744073709551616) by done.
  unfold PMTMR_TICK_RATE, NANOSEC_TICK_RATE in Hhalf.
  assert (Hticks : ∀ vp,
    0 <= remaining_ns vp →
    remaining_ns vp * 3579545 < 2 ^ 31 * 1000000000 →
    remaining_ticks vp mod 2 ^ 31
    = remaining_ns vp * 3579545 / 1000000000).
  { intros vp H0 H1. unfold remaining_ticks.
    unfold PMTMR_TICK_RATE, NANOSEC_TICK_RATE.
    rewrite (wrap64_small (remaining_ns vp)) by lia.
    rewrite (wrap64_small (remaining_ns vp * 3579545)) by lia.
    assert (Hq : 0 <= remaining_ns vp * 3579545 / 1000000000 < 2 ^ 31).
    { split; [apply Z.div_pos; lia|apply Z.div_lt_upper_bound; lia]. }
    rewrite wrap32_small by lia. by apply Z.mod_small. }
  rewrite (Hticks vp1), (Hticks vp2) by lia.
  assert (remaining_ns vp1 * 3579545 / 1000000000
          <= remaining_ns vp2 * 3579545 / 1000000000)
    by (apply Z.div_le_mono; lia).
  lia.
Qed.

Lemma pmtmr_counter_monotone_witness :
  ∃ r1 r2,
    get_pmtmr_val (set_timer {| remaining :=
        {| it_interval := {| tv_sec := 0; tv_nsec := 0 |};
           it_value := {| tv_sec := 1; tv_nsec := 500 |} |} |} vpmtmr_idle) []
      = Ret r1 (set_timer {| remaining :=
        {| it_interval := {| tv_sec := 0; tv_nsec := 0 |};
           it_value := {| tv_sec := 1; tv_nsec := 500 |} |} |} vpmtmr_idle) []
    ∧ get_pmtmr_val (set_timer {| remaining :=
        {| it_interval := {| tv_sec := 0; tv_nsec := 0 |};
           it_value := {| tv_sec := 2; tv_nsec := 0 |} |} |} vpmtmr_idle) []
      = Ret r2 (set_timer {| remaining :=
        {| it_interval := {| tv_sec := 0; tv_nsec := 0 |};
           it_value := {| tv_sec := 2; tv_nsec := 0 |} |} |} vpmtmr_idle) []
    ∧ r2 <= r1.
Proof.
  apply pmtmr_counter_monotone; [reflexivity | by vm_compute | by vm_compute].
Defined.

(** The duration [set_pmtmr_val] computes for [c] ticks. *)
Lemma ticks_to_duration (c : Z) :
  0 <= c <= PMTMR_NOCARRY_CNTS →
  let sec := c / PMTMR_TICK_RATE in
  let tv_nsecs := wrap64 (c * NANOSEC_TICK_RATE) / PMTMR_TICK_RATE in
  let nsec := to_int64 (tv_nsecs - wrap64 (sec * NANOSEC_TICK_RATE)) in
  0 <= sec <= 599 ∧ 0 <= nsec < NANOSEC_TICK_RATE
  ∧ sec * NANOSEC_TICK_RATE + nsec
    = c * NANOSEC_TICK_RATE / PMTMR_TICK_RATE.
Proof.
  intros Hc. cbv zeta.
  unfold PMTMR_NOCARRY_CNTS, PMTMR_NOCARRY_MASK, PMTMR_TICK_RATE,
    NANOSEC_TICK_RATE in *.
  assert (H64 : 2 ^ 64 = 18446744073709551616) by done.
  assert (H63 : 2 ^ 63 = 9223372036854775808) by done.
  rewrite (wrap64_small (c * 1000000000)) by lia.
  set (q := c * 1000000000 / 3579545).
  set (s := c / 3579545).
  assert (Hq : 3579545 * q <= c * 1000000000 < 3579545 * q + 3579545).
  { subst q. pose proof (Z.div_mod (c * 1000000000) 3579545 ltac:(lia)).
    pose proof (Z.mod_pos_bound (c * 1000000000) 3579545 ltac:(lia)). lia. }
  assert (Hs : 3579545 * s <= c < 3579545 * s + 3579545).
  { subst s. pose proof (Z.div_mod c 3579545 ltac:(lia)).
    pose proof (Z.mod_pos_bound c 3579545 ltac:(lia)). lia. }
  assert (Hqs : s * 1000000000 <= q < s * 1000000000 + 1000000000) by lia.
  rewrite (wrap64_small (s * 1000000000)) by lia.
  rewrite (to_int64_small (q - s * 1000000000)) by lia.
  lia.
Qed.

(** X23: what [set_pmtmr_val] arms.  For every 32-bit value it latches bit
    31 as the carry flag and arms a one-shot timer (zero interval) with a
    normalised duration (0 <= tv_nsec < 10^9, at most 599 s) of
    floor(c * 10^9 / 3579545) nanoseconds, c = 0x7fffffff minus the low 31
    bits of the value being the ticks left to the carry; that duration is
    zero exactly when the low 31 bits are all ones.  The port address is
    not touched and nothing is printed. *)
Theorem set_pmtmr_val_arms (v : Z) (vp : vpmtmr) (t : list event) :
  0 <= v < 2 ^ 32 →
  ∃ vp',
    set_pmtmr_val v vp t = Ret tt vp' t
    ∧ msb_is_set vp' = Z.testbit v 31
    ∧ io_addr vp' = io_addr vp
    ∧ it_interval (remaining (timer vp')) = {| tv_sec := 0; tv_nsec := 0 |}
    ∧ 0 <= tv_sec (it_value (remaining (timer vp'))) <= 599
    ∧ 0 <= tv_nsec (it_value (remaining (timer vp'))) < NANOSEC_TICK_RATE
    ∧ remaining_ns vp'
      = (PMTMR_NOCARRY_CNTS - v mod 2 ^ 31) * NANOSEC_TICK_RATE
        / PMTMR_TICK_RATE
    ∧ (remaining_ns vp' = 0 ↔ v mod 2 ^ 31 = 2 ^ 31 - 1).
Proof.
  intros Hv.
  assert (HLr : 0 <= v mod 2 ^ 31 < 2 ^ 31) by (apply Z.mod_pos_bound; lia).
  assert (H31 : 2 ^ 31 = 2147483648) by done.
  assert (H32 : 2 ^ 32 = 4294967296) by done.
  assert (Hc : 0 <= PMTMR_NOCARRY_CNTS - v mod 2 ^ 31 <= PMTMR_NOCARRY_CNTS).
  { unfold PMTMR_NOCARRY_CNTS, PMTMR_NOCARRY_MASK. lia. }
  pose proof (ticks_to_duration _ Hc) as Hd. cbv zeta in Hd.
  destruct Hd as (Hsec & Hnsec & Htot).
  unfold set_pmtmr_val, acrn_timer_settime.
  rewrite land_carry_mask, land_nocarry_mask.
  rewrite (wrap32_small (PMTMR_NOCARRY_CNTS - _))
    by (unfold PMTMR_NOCARRY_CNTS, PMTMR_NOCARRY_MASK in *; lia).
  set (c := PMTMR_NOCARRY_CNTS - v mod 2 ^ 31) in *.
  assert (Hzero : c * NANOSEC_TICK_RATE / PMTMR_TICK_RATE = 0
                  ↔ v mod 2 ^ 31 = 2 ^ 31 - 1).
  { unfold NANOSEC_TICK_RATE, PMTMR_TICK_RATE. split.
    - intros Hz.
      destruct (Z.eq_dec c 0) as [Hc0|Hc0];
        [unfold c, PMTMR_NOCARRY_CNTS, PMTMR_NOCARRY_MASK in Hc0; lia|].
      assert (1 <= c * 1000000000 / 3579545)
        by (apply Z.div_le_lower_bound; lia).
      lia.
    - intros Hz.
      replace c with 0
        by (unfold c, PMTMR_NOCARRY_CNTS, PMTMR_NOCARRY_MASK; lia).
      done. }
  destruct (Z.testbit v 31) eqn:Eb.
  - change (negb (PMTMR_CARRY_MASK =? 0)) with true. run_monad.
    eexists. split; [reflexivity|].
    unfold remaining_ns.
    cbn [msb_is_set io_addr set_msb_is_set set_timer timer remaining
         it_value it_interval tv_sec tv_nsec].
    by rewrite Htot.
  - change (negb (0 =? 0)) with false. run_monad.
    eexists. split; [reflexivity|].
    unfold remaining_ns.
    cbn [msb_is_set io_addr set_msb_is_set set_timer timer remaining
         it_value it_interval tv_sec tv_nsec].
    by rewrite Htot.
Qed.

Lemma set_pmtmr_val_arms_witness :
  ∃ vp',
    set_pmtmr_val 0xFFFFFFFF vpmtmr_idle [] = Ret tt vp' []
    ∧ msb_is_set vp' = Z.testbit 0xFFFFFFFF 31
    ∧ io_addr vp' = io_addr vpmtmr_idle
    ∧ it_interval (remaining (timer vp')) = {| tv_sec := 0; tv_nsec := 0 |}
    ∧ 0 <= tv_sec (it_value (remaining (timer vp'))) <= 599
    ∧ 0 <= tv_nsec (it_value (remaining (timer vp'))) < NANOSEC_TICK_RATE
    ∧ remaining_ns vp'
      = (PMTMR_NOCARRY_CNTS - 0xFFFFFFFF mod 2 ^ 31) * NANOSEC_TICK_RATE
        / PMTMR_TICK_RATE
    ∧ (remaining_ns vp' = 0 ↔ 0xFFFFFFFF mod 2 ^ 31 = 2 ^ 31 - 1).
Proof. apply (set_pmtmr_val_arms 0xFFFFFFFF vpmtmr_idle []). lia. Defined.

(** X24: the value read back right after a set is the value set or the next
    one.  For every 32-bit [v], [set_pmtmr_val v] followed by
    [get_pmtmr_val] with no time elapsed returns [v] or [v + 1], never a
    smaller value and never one across the carry boundary; when the low
    31 bits of [v] are all ones it returns [v] itself. *)
Theorem set_get_returns_v_or_next (v : Z) (vp : vpmtmr) (t : list event) :
  0 <= v < 2 ^ 32 →
  ∃ r vp' t',
    (set_pmtmr_val v ;; get_pmtmr_val) vp t = Ret r vp' t'
    ∧ (r = v ∨ r = v + 1)
    ∧ (v mod 2 ^ 31 = 2 ^ 31 - 1 → r = v).
Proof.
  intros Hv.
  assert (HLr : 0 <= v mod 2 ^ 31 < 2 ^ 31) by (apply Z.mod_pos_bound; lia).
  assert (H31 : 2 ^ 31 = 2147483648) by done.
  assert (H32 : 2 ^ 32 = 4294967296) by done.
  assert (Hc : 0 <= PMTMR_NOCARRY_CNTS - v mod 2 ^ 31 <= PMTMR_NOCARRY_CNTS).
  { unfold PMTMR_NOCARRY_CNTS, PMTMR_NOCARRY_MASK. lia. }
  pose proof (tick_roundtrip _ Hc) as Hrt. cbv zeta in Hrt.
  destruct Hrt as (_ & Hc0 & Hc1).
  pose proof (testbit_31_decompose v Hv) as Hdec.
  unfold bind.
  assert (Hset : ∃ vp',
    set_pmtmr_val v vp t = Ret tt vp' t
    ∧ msb_is_set vp' = Z.testbit v 31
    ∧ it_value (remaining (timer vp'))
      = {| tv_sec := (PMTMR_NOCARRY_CNTS - v mod 2 ^ 31) / PMTMR_TICK_RATE;
           tv_nsec :=
             to_int64
               (wrap64 ((PMTMR_NOCARRY_CNTS - v mod 2 ^ 31)
                        * NANOSEC_TICK_RATE) / PMTMR_TICK_RATE
                - wrap64 ((PMTMR_NOCARRY_CNTS - v mod 2 ^ 31)
                          / PMTMR_TICK_RATE * NANOSEC_TICK_RATE)) |}).
  { unfold set_pmtmr_val, acrn_timer_settime.
    rewrite land_carry_mask, land_nocarry_mask.
    rewrite (wrap32_small (PMTMR_NOCARRY_CNTS - _))
      by (unfold PMTMR_NOCARRY_CNTS, PMTMR_NOCARRY_MASK in *; lia).
    destruct (Z.testbit v 31).
    - change (negb (PMTMR_CARRY_MASK =? 0)) with true. run_monad.
      by eexists.
    - change (negb (0 =? 0)) with false. run_monad. by eexists. }
  destruct Hset as (vp' & -> & Hmsb & Hval).
  rewrite get_pmtmr_val_value. eexists _, _, _. split; [reflexivity|].
  assert (Ht : remaining_ticks vp' = wrap32
     (wrap64
        (wrap64
           ((PMTMR_NOCARRY_CNTS - v mod 2 ^ 31) / PMTMR_TICK_RATE
            * NANOSEC_TICK_RATE
            + to_int64
                (wrap64 ((PMTMR_NOCARRY_CNTS - v mod 2 ^ 31)
                         * NANOSEC_TICK_RATE) / PMTMR_TICK_RATE
                 - wrap64 ((PMTMR_NOCARRY_CNTS - v mod 2 ^ 31)
                           / PMTMR_TICK_RATE * NANOSEC_TICK_RATE)))
         * PMTMR_TICK_RATE) / NANOSEC_TICK_RATE)).
  { unfold remaining_ticks, remaining_ns. by rewrite Hval. }
  rewrite <- Ht in Hc0, Hc1.
  rewrite Hmsb.
  rewrite (Z.mod_small (remaining_ticks vp'))
    by (unfold PMTMR_NOCARRY_CNTS, PMTMR_NOCARRY_MASK in *; lia).
  unfold PMTMR_NOCARRY_CNTS, PMTMR_NOCARRY_MASK in *.
  split; [|intros Hall]; destruct (Z.testbit v 31); lia.
Qed.

Lemma set_get_returns_v_or_next_witness :
  ∃ r vp' t',
    (set_pmtmr_val 0x7FFFFFFF ;; get_pmtmr_val) vpmtmr_idle []
      = Ret r vp' t'
    ∧ (r = 0x7FFFFFFF ∨ r = 0x7FFFFFFF + 1)
    ∧ (0x7FFFFFFF mod 2 ^ 31 = 2 ^ 31 - 1 → r = 0x7FFFFFFF).
Proof.
  apply (set_get_returns_v_or_next 0x7FFFFFFF vpmtmr_idle []). lia.
Defined.

(** X25: the life cycle of the timer device.  [vpmtmr_init] sets
    [ctx->vpmtmr]; when [acrn_timer_init] fails it leaves the port address
    0 and arms nothing, and [vpmtmr_deinit] then neither unregisters a
    port nor stops a timer.  When [acrn_timer_init] succeeds, the port
    address is 0x408, the carry flag is clear, the timer is armed for a
    whole half period, and [vpmtmr_deinit] unregisters the 4-byte port
    0x408 and then stops the timer.  Either way [vpmtmr_deinit] ends with
    [ctx->vpmtmr] NULL. *)
Theorem pmtmr_lifecycle (status : Z) (s : pm_ctx) (t : list event) :
  ∃ s1 s2,
    vpmtmr_init status s t = Ret tt s1 t
    ∧ vpmtmr_deinit s1 t = Ret tt s2 t
    ∧ ctx_vpmtmr s1 = true ∧ ctx_vpmtmr s2 = false
    ∧ vpmtimer s2 = vpmtimer s1
    ∧ if status =? 0 then
        io_addr (vpmtimer s1) = IO_PMTMR
        ∧ msb_is_set (vpmtimer s1) = false
        ∧ remaining_ns (vpmtimer s1)
          = PMTMR_NOCARRY_CNTS * NANOSEC_TICK_RATE / PMTMR_TICK_RATE
        ∧ pm_calls s1 = pm_calls s ++ [CallAcrnTimerInit; CallMutexInit]
        ∧ pm_calls s2
          = pm_calls s1 ++ [CallUnregisterInout "pmtimer" IO_PMTMR 4;
                            CallAcrnTimerDeinit]
      else
        io_addr (vpmtimer s1) = 0
        ∧ timer (vpmtimer s1) = timer (vpmtimer s)
        ∧ pm_calls s1 = pm_calls s ++ [CallAcrnTimerInit]
        ∧ pm_calls s2 = pm_calls s1.
Proof.
  unfold vpmtmr_init, vpmtmr_deinit, pm_call_, with_vpmtimer.
  destruct (status =? 0); cbn [negb].
  - eexists _, _. split; [reflexivity|]. split; [reflexivity|].
    repeat split; try reflexivity.
    all: cbn [pm_calls set_vpmtimer set_ctx_vpmtmr vpmtimer ctx_vpmtmr];
      by rewrite <- ?app_assoc.
  - eexists _, _. split; [reflexivity|]. split; [reflexivity|].
    by repeat split.
Qed.

(** X26: [vpmtmr_deinit] must not run twice.  After one call [ctx->vpmtmr]
    is NULL, and a second call reads [io_addr] through that NULL
    pointer. *)
Theorem pmtmr_deinit_twice_faults (s : pm_ctx) (t : list event) :
  ctx_vpmtmr s = true →
  ∃ s1,
    vpmtmr_deinit s t = Ret tt s1 t
    ∧ vpmtmr_deinit s1 t = Crash BadPointer s1 t.
Proof.
  intros Hp. unfold vpmtmr_deinit, pm_call_. run_monad. rewrite Hp.
  destruct (negb (io_addr (vpmtimer s) =? 0)); cbv beta iota;
    eexists; (split; [reflexivity|]); reflexivity.
Qed.

Lemma pmtmr_deinit_twice_faults_witness :
  ∃ s1,
    vpmtmr_deinit {| vpmtimer := vpmtmr_idle; ctx_vpmtmr := true;
                     pm_calls := [] |} [] = Ret tt s1 []
    ∧ vpmtmr_deinit s1 [] = Crash BadPointer s1 [].
Proof.
  apply (pmtmr_deinit_twice_faults
           {| vpmtimer := vpmtmr_idle; ctx_vpmtmr := true;
              pm_calls := [] |} []).
  reflexivity.
Defined.
